(** * FocusTube: classification, filtering, focus sessions and re-ranking

    A shallow embedding of the decision logic of the FocusTube backend
    ([backend/app/services]) and the properties its specification states.

    - [ai_classifier.py]   : [AIClassifier._fallback_classification]
    - [filter_engine.py]   : [FilterEngine.check_video]
    - [focus_engine.py]    : [FocusEngine.activate_mode], [_get_locked_mode],
                             [lock_session], [unlock_session], [check_time_limit]
    - [personalization.py] : [PersonalizationService.get_personalized_ranking]
    - [routers/modes.py]   : [PRESET_MODES]

    Python [float] is IEEE binary64 and is modelled by Rocq's primitive
    floats, [int] by [Z], [str] by [string], a [dict] read with
    [.get(key, default)] by a record of optional fields ([None] = key absent),
    [datetime] by a count of microseconds. *)

From Stdlib Require Import ZArith List String Ascii Bool Lia.
From Stdlib Require Import Floats Permutation Sorted DecimalString.
Import ListNotations.

Set Warnings "-inexact-float".

Local Open Scope string_scope.
Local Open Scope Z_scope.

(* ================================================================= *)
(** ** Python built-ins used by the services *)

Module Py.

(** [str.lower] and [str.isupper] are Unicode aware.  The development is
    parametric in them; [ascii_ops] below is what they compute on ASCII
    text and is used to run the worked scenarios. *)
Class StrOps : Type := {
  lower : string -> string;
  isupper : ascii -> bool
}.

Definition ascii_lower_char (c : ascii) : ascii :=
  let n := nat_of_ascii c in
  if (65 <=? n)%nat && (n <=? 90)%nat then ascii_of_nat (n + 32) else c.

Definition ascii_isupper (c : ascii) : bool :=
  let n := nat_of_ascii c in (65 <=? n)%nat && (n <=? 90)%nat.

Fixpoint ascii_lower (s : string) : string :=
  match s with
  | EmptyString => EmptyString
  | String c s' => String (ascii_lower_char c) (ascii_lower s')
  end.

Definition ascii_ops : StrOps :=
  {| lower := ascii_lower; isupper := ascii_isupper |}.

(** [needle in hay] on strings: substring test. *)
Fixpoint contains (needle hay : string) : bool :=
  String.prefix needle hay ||
  match hay with
  | EmptyString => false
  | String _ hay' => contains needle hay'
  end.

(** [x in xs] on a list of strings. *)
Definition mem (x : string) (xs : list string) : bool :=
  existsb (String.eqb x) xs.

(** Truth value of a list and of a string: non-empty. *)
Definition truthy {A} (l : list A) : bool :=
  match l with [] => false | _ => true end.

Definition str_truthy (s : string) : bool :=
  match s with EmptyString => false | _ => true end.

(** [s[:n]] *)
Definition take (n : nat) (s : string) : string := String.substring 0 n s.

(** [sep.join(xs)] *)
Definition join (sep : string) (xs : list string) : string :=
  String.concat sep xs.

(** [sum(1 for c in s if c.isupper())] *)
Fixpoint count_upper `{StrOps} (s : string) : nat :=
  match s with
  | EmptyString => 0%nat
  | String c s' => ((if isupper c then 1 else 0) + count_upper s')%nat
  end.

(** [max(a, b)] and [min(a, b)] on floats: the first argument is kept
    unless the second compares strictly greater (resp. smaller). *)
Definition fmax (a b : float) : float := if PrimFloat.ltb a b then b else a.
Definition fmin (a b : float) : float := if PrimFloat.ltb b a then b else a.

(** [str(n)] for an [int]. *)
Definition str_of_int (n : Z) : string := NilEmpty.string_of_int (Z.to_int n).

(** [dict.get(key, default)] on an optional field. *)
Definition get {A} (field : option A) (default : A) : A :=
  match field with Some x => x | None => default end.

End Py.
Import Py.

(* ================================================================= *)
(** ** Data model *)

(** The [video] dictionaries handed to the services, with the keys they
    read.  A field is [None] when the key is absent, so that [.get] falls
    back on its default; a key that is present holds a value of the type the
    specification gives it ([language] may also hold Python's [None], which
    the filter treats like an absent key). *)
Record Video : Type := {
  v_title : option string;
  v_description : option string;
  v_tags : option (list string);
  v_channel_title : option string;
  v_duration_seconds : option Z;
  v_is_short : option bool;
  v_language : option string
}.

(** [schemas/video.py]: [VideoClassification]. *)
Record VideoClassification : Type := {
  category : string;
  confidence_score : float;
  entertainment_score : float;
  depth_score : float;
  clickbait_score : float
}.

(** [Field(ge=0.0, le=1.0)] *)
Definition field_ok (x : float) : bool :=
  PrimFloat.leb 0 x && PrimFloat.leb x 1.

(** The pydantic constructor: it raises a validation error ([None]) when a
    score violates its [Field] bounds. *)
Definition VideoClassification_new
    (cat : string) (conf ent dep click : float) : option VideoClassification :=
  if field_ok conf && field_ok ent && field_ok dep && field_ok click
  then Some {| category := cat; confidence_score := conf;
               entertainment_score := ent; depth_score := dep;
               clickbait_score := click |}
  else None.

(* ================================================================= *)
(** ** [AIClassifier._fallback_classification] *)

Module Classifier.

Definition music_keywords : list string :=
  [ "song"; "music"; "album"; "concert"; "lyrics"; "lyrical"; "audio";
    "official video"; "official audio"; "music video"; "full song";
    "video song"; "vedio song";
    "lofi"; "lo-fi"; "hip hop"; "rap"; "rock"; "pop"; "jazz"; "classical";
    "edm"; "dubstep"; "remix"; "cover"; "acoustic"; "instrumental";
    "tollywood"; "bollywood"; "kollywood"; "sandalwood";
    "telugu"; "hindi"; "tamil"; "kannada"; "malayalam"; "bhojpuri";
    "item song"; "romantic song"; "melody"; "gaana"; "gana";
    "promo song"; "title song"; "theme song"; "trending song";
    "singer"; "vocalist"; "rapper"; "dj"; "producer";
    "beats"; "track"; "playlist"; "mixtape";
    "live performance"; "stage"; "concert"; "mtv"; "spotify"; "gaana" ].

Definition music_channel_indicators : list string :=
  [ "music"; "records"; "audio"; "songs"; "entertainment"; "media";
    "films"; "pictures"; "studios"; "mangavaram"; "lahari"; "aditya";
    "zee"; "t-series"; "sony"; "tips"; "saregama"; "eros" ].

Definition gaming_keywords : list string :=
  [ "gameplay"; "gaming"; "playthrough"; "stream"; "gamer"; "game";
    "walkthrough"; "let's play"; "esports"; "twitch"; "streamer";
    "minecraft"; "fortnite"; "valorant"; "gta"; "cod"; "pubg";
    "elden ring"; "zelda"; "pokemon"; "nintendo"; "playstation"; "xbox";
    "speedrun"; "pro player"; "rank"; "competitive" ].

Definition comedy_keywords : list string :=
  [ "comedy"; "funny"; "laugh"; "humor"; "joke"; "stand up"; "skit";
    "prank"; "roast"; "meme"; "compilation"; "try not to laugh";
    "fails"; "bloopers"; "reaction"; "challenge" ].

Definition general_entertainment : list string :=
  [ "movie"; "film"; "trailer"; "teaser"; "scenes"; "clips";
    "vlog"; "day in"; "haul"; "unboxing"; "reaction";
    "celebrity"; "interview"; "talk show"; "reality"; "drama" ].

Definition education_keywords : list string :=
  [ "tutorial"; "course"; "lecture"; "lesson"; "learn"; "teaching";
    "education"; "educational"; "academy"; "university"; "college";
    "programming"; "coding"; "developer"; "software development";
    "science"; "physics"; "chemistry"; "mathematics"; "biology";
    "history"; "geography"; "economics"; "psychology";
    "certification"; "exam prep"; "study with me"; "study tips" ].

Definition tech_keywords : list string :=
  [ "technology"; "tech review"; "python"; "javascript"; "java";
    "machine learning"; "ai"; "artificial intelligence"; "data science";
    "cloud"; "devops"; "kubernetes"; "docker"; "programming tutorial";
    "code"; "developer"; "engineering"; "computer science" ].

Definition howto_keywords : list string :=
  [ "how to"; "diy"; "tips"; "tricks"; "guide"; "step by step";
    "recipe"; "cooking"; "baking"; "makeup"; "fashion"; "style";
    "workout"; "fitness"; "yoga"; "meditation"; "self improvement" ].

(** The two emoji entries are kept byte for byte as the source file
    spells them. *)
Definition clickbait_patterns : list string :=
  [ "you won't believe"; "gone wrong"; "shocking"; "exposed";
    "prank"; "ðŸ˜±"; "ðŸ”¥"; "secret"; "revealed"; "must see";
    "insane"; "crazy"; "epic fail"; "best ever"; "unbelievable" ].

(** [for kw in kws: if kw in text: ...; break]: the body runs once, at the
    first keyword found, so only whether some keyword occurs matters. *)
Definition any_in (kws : list string) (text : string) : bool :=
  existsb (fun kw => contains kw text) kws.

(** The three local variables the keyword cascade assigns. *)
Record Cascade : Type := {
  c_category : string;
  c_entertainment : float;
  c_depth : float
}.

Definition is_entertainment (st : Cascade) : bool :=
  String.eqb (c_category st) "ENTERTAINMENT".

Definition set (cat : string) (ent dep : float) : Cascade :=
  {| c_category := cat; c_entertainment := ent; c_depth := dep |}.

(** One guarded stage: [if guard: for kw in kws: if kw in text: ...]. *)
Definition stage (guard : Cascade -> bool) (kws : list string)
    (text : string) (hit : Cascade -> Cascade) (st : Cascade) : Cascade :=
  if guard st && any_in kws text then hit st else st.

Definition not_music (st : Cascade) : bool :=
  negb (String.eqb (c_category st) "MUSIC").

Definition cascade (text channel : string) : Cascade :=
  let st := set "ENTERTAINMENT" 0.5 0.5 in
  let st := stage (fun _ => true) music_keywords text
              (fun _ => set "MUSIC" 0.8 0.2) st in
  let st := stage not_music music_channel_indicators channel
              (fun _ => set "MUSIC" 0.7 0.3) st in
  let st := stage is_entertainment gaming_keywords text
              (fun _ => set "GAMING" 0.8 0.3) st in
  let st := stage is_entertainment comedy_keywords text
              (fun _ => set "COMEDY" 0.9 0.1) st in
  let st := stage is_entertainment general_entertainment text
              (fun s => set (c_category s) 0.7 0.3) st in
  let st := stage is_entertainment education_keywords text
              (fun _ => set "EDUCATION" 0.2 0.8) st in
  let st := stage is_entertainment tech_keywords text
              (fun _ => set "SCIENCE_TECH" 0.3 0.7) st in
  let st := stage is_entertainment howto_keywords text
              (fun _ => set "HOWTO_STYLE" 0.4 0.6) st in
  st.

(** Duration-based adjustments. *)
Definition adjust_duration (duration : Z) (st : Cascade) : Cascade :=
  if duration <? 60 then
    if negb (mem (c_category st) ["MUSIC"]) then
      set (c_category st) (fmax (c_entertainment st) 0.7)
          (fmin (c_depth st) 0.3)
    else st
  else if 1200 <? duration then
    set (c_category st) (c_entertainment st)
        (fmin (PrimFloat.add (c_depth st) 0.2) 1.0)
  else st.

(** [caps_ratio > 0.5], where [caps_ratio = uppers / max(len, 1)] is the
    correctly rounded quotient of two integers: for a title of fewer than
    2^53 characters it exceeds one half exactly when twice the count exceeds
    the divisor. *)
Definition caps_ratio_high `{StrOps} (original_title : string) : bool :=
  (Nat.max (String.length original_title) 1 <? 2 * count_upper original_title)%nat.

Definition clickbait `{StrOps} (text original_title : string) : float :=
  let clickbait_score := 0.1%float in
  let clickbait_score :=
    if any_in clickbait_patterns text then 0.7%float else clickbait_score in
  let clickbait_score :=
    if caps_ratio_high original_title then fmax clickbait_score 0.5
    else clickbait_score in
  let clickbait_score :=
    if contains "!!!" original_title || contains "???" original_title
       || contains "ðŸ”´" original_title
    then fmax clickbait_score 0.4 else clickbait_score in
  clickbait_score.

(** [f"{title} {' '.join(tags)} {description} {channel}"] *)
Definition combined_text (title : string) (tags : list string)
    (description channel : string) : string :=
  title ++ " " ++ join " " tags ++ " " ++ description ++ " " ++ channel.

Definition _fallback_classification `{StrOps} (video : Video)
    : option VideoClassification :=
  let title := lower (get (v_title video) EmptyString) in
  let original_title := get (v_title video) EmptyString in
  let description := take 500 (lower (get (v_description video) EmptyString)) in
  let tags := map lower (get (v_tags video) []) in
  let channel := lower (get (v_channel_title video) EmptyString) in
  let duration := get (v_duration_seconds video) 0 in
  let text := combined_text title tags description channel in
  let st := adjust_duration duration (cascade text channel) in
  VideoClassification_new (c_category st) 0.6
    (c_entertainment st) (c_depth st) (clickbait text original_title).

(** The categories the heuristic cascade can assign. *)
Definition output_categories : list string :=
  [ "ENTERTAINMENT"; "MUSIC"; "GAMING"; "COMEDY"; "EDUCATION";
    "SCIENCE_TECH"; "HOWTO_STYLE" ].

(** A score within [[0.0, 1.0]], bounds included. *)
Definition unit_interval (x : float) : Prop :=
  PrimFloat.leb 0 x = true /\ PrimFloat.leb x 1 = true.

(** The states in which the keyword cascade can end. *)
Definition cascade_outcomes : list Cascade :=
  [ set "ENTERTAINMENT" 0.5 0.5; set "ENTERTAINMENT" 0.7 0.3;
    set "MUSIC" 0.8 0.2; set "MUSIC" 0.7 0.3;
    set "GAMING" 0.8 0.3; set "COMEDY" 0.9 0.1;
    set "EDUCATION" 0.2 0.8; set "SCIENCE_TECH" 0.3 0.7;
    set "HOWTO_STYLE" 0.4 0.6 ].

Definition well_formed (st : Cascade) : Prop :=
  In (c_category st) output_categories
  /\ unit_interval (c_entertainment st) /\ unit_interval (c_depth st).

(** The states after the duration adjustment: each outcome of the cascade
    with a short, a medium and a long duration. *)
Definition adjusted_outcomes : list Cascade :=
  flat_map (fun st => [ adjust_duration 0 st; adjust_duration 600 st;
                        adjust_duration 3600 st ])
           cascade_outcomes.

(** The values the clickbait score can take. *)
Definition clickbait_outcomes : list float :=
  [ 0.1%float; 0.4%float; 0.5%float; 0.7%float ].

End Classifier.

(* ================================================================= *)
(** ** [models/focus_mode.py]: a row of the [focus_modes] table *)

(** A [datetime], counted in microseconds. *)
Definition datetime : Type := Z.

Record FocusMode : Type := {
  id : string;                       (* [str(mode.id)] *)
  user_id : string;
  name : string;
  is_active : bool;
  is_locked : bool;
  lock_until : option datetime;
  allowed_categories : list string;
  blocked_categories : list string;
  min_duration_seconds : Z;
  allowed_languages : list string;
  max_clickbait_score : float;
  max_entertainment_score : float;
  block_shorts : bool;
  block_trending : bool;
  daily_time_limit_minutes : option Z;
  blocked_keywords : list string
}.

(* ================================================================= *)
(** ** [FilterEngine.check_video] *)

Module Filter.

(** The returned dictionary: [{"allowed": True}] carries no ["reason"]. *)
Record Verdict : Type := {
  allowed : bool;
  reason : option string
}.

Definition allow : Verdict := {| allowed := true; reason := None |}.
Definition block (why : string) : Verdict :=
  {| allowed := false; reason := Some why |}.

(** Rounding of [num/den] ([den > 0]) to the nearest integer, ties to even. *)
Definition round_half_even (num den : Z) : Z :=
  let q := num / den in
  match (2 * (num mod den) ?= den) with
  | Lt => q
  | Gt => q + 1
  | Eq => if Z.even q then q else q + 1
  end.

Definition two_digits (n : Z) : string :=
  if n <? 10 then "0" ++ str_of_int n else str_of_int n.

(** [f"{x:.2f}"]: the exact binary value, correctly rounded to two decimals. *)
Definition format_2f (x : float) : string :=
  let sign (s : bool) : string := if s then "-" else EmptyString in
  match Prim2SF x with
  | S754_nan => "nan"
  | S754_infinity s => sign s ++ "inf"
  | S754_zero s => sign s ++ "0.00"
  | S754_finite s m e =>
      let cents :=
        if 0 <=? e then Z.pos m * 2 ^ e * 100
        else round_half_even (Z.pos m * 100) (2 ^ (- e)) in
      sign s ++ str_of_int (cents / 100) ++ "." ++ two_digits (cents mod 100)
  end.

Definition shorts_reason : string := "Shorts are blocked in this focus mode".

Definition duration_reason (min_seconds : Z) : string :=
  "Video too short (minimum " ++ str_of_int (min_seconds / 60)
    ++ " minutes required)".

Definition blocked_category_reason (cat : string) : string :=
  "Category '" ++ cat ++ "' is blocked in this focus mode".

Definition not_allowed_category_reason (cat : string) : string :=
  "Category '" ++ cat ++ "' is not allowed in this focus mode".

Definition language_reason (lang : string) : string :=
  "Language '" ++ lang ++ "' is not allowed in this focus mode".

Definition clickbait_reason (score : float) : string :=
  "Video detected as clickbait (score: " ++ format_2f score ++ ")".

Definition entertainment_reason (score : float) : string :=
  "Video too entertaining for this focus mode (score: "
    ++ format_2f score ++ ")".

Definition keyword_reason (kw : string) : string :=
  "Video contains blocked keyword: '" ++ kw ++ "'".

(** Each numbered step of [check_video] either returns a verdict
    ([Some]) or falls through to the next one ([None]). *)
Definition step := option Verdict.

Definition or_else (s : step) (rest : Verdict) : Verdict :=
  match s with Some v => v | None => rest end.

Notation "s 'else_continue' rest" := (or_else s rest)
  (at level 60, right associativity).

Section Steps.
Context `{StrOps}.
Variable mode : FocusMode.
Variable video : Video.
Variable classification : VideoClassification.

(** Step 1: Shorts. *)
Definition check_shorts : step :=
  if block_shorts mode && get (v_is_short video) false
  then Some (block shorts_reason) else None.

(** Step 2: duration. *)
Definition check_duration : step :=
  let duration := get (v_duration_seconds video) 0 in
  if duration <? min_duration_seconds mode
  then Some (block (duration_reason (min_duration_seconds mode)))
  else None.

(** Step 3, first half: blocked categories. *)
Definition check_blocked_categories : step :=
  let category := category classification in
  if truthy (blocked_categories mode)
     && mem category (blocked_categories mode)
  then Some (block (blocked_category_reason category)) else None.

(** Step 3, second half: allowed categories. *)
Definition check_allowed_categories : step :=
  let category := category classification in
  if truthy (allowed_categories mode)
     && negb (mem category (allowed_categories mode))
  then Some (block (not_allowed_category_reason category)) else None.

(** Step 4: language. *)
Definition check_language : step :=
  if truthy (allowed_languages mode) then
    let video_lang := get (v_language video) EmptyString in
    if str_truthy video_lang && negb (mem video_lang (allowed_languages mode))
    then Some (block (language_reason video_lang)) else None
  else None.

(** Step 5: clickbait score. *)
Definition check_clickbait : step :=
  if PrimFloat.ltb (max_clickbait_score mode) (clickbait_score classification)
  then Some (block (clickbait_reason (clickbait_score classification)))
  else None.

(** Step 6: entertainment score. *)
Definition check_entertainment : step :=
  if PrimFloat.ltb (max_entertainment_score mode)
                   (entertainment_score classification)
  then Some (block (entertainment_reason (entertainment_score classification)))
  else None.

(** Step 7: blocked keywords; the loop returns at the first keyword
    found in the title or the description. *)
Definition keyword_hit (keyword : string) : bool :=
  let title_lower := lower (get (v_title video) EmptyString) in
  let description_lower := lower (get (v_description video) EmptyString) in
  let keyword_lower := lower keyword in
  contains keyword_lower title_lower
  || contains keyword_lower description_lower.

Definition check_keywords : step :=
  if truthy (blocked_keywords mode) then
    match find keyword_hit (blocked_keywords mode) with
    | Some keyword => Some (block (keyword_reason keyword))
    | None => None
    end
  else None.

(** Step 8 (trending) is a comment in the source: nothing is evaluated. *)
Definition check_video : Verdict :=
  check_shorts else_continue
  check_duration else_continue
  check_blocked_categories else_continue
  check_allowed_categories else_continue
  check_language else_continue
  check_clickbait else_continue
  check_entertainment else_continue
  check_keywords else_continue
  allow.

(** *** The rules as the specification lists them (section 4.2) *)

Inductive Rule : Type :=
| RShorts | RDuration | RBlockedCategory | RAllowedCategory
| RLanguage | RClickbait | REntertainment | RKeyword.

Definition rule_order : list Rule :=
  [ RShorts; RDuration; RBlockedCategory; RAllowedCategory;
    RLanguage; RClickbait; REntertainment; RKeyword ].

(** When a rule rejects, in the specification's words. *)
Definition rule_fails (r : Rule) : bool :=
  match r with
  | RShorts => block_shorts mode && get (v_is_short video) false
  | RDuration =>
      get (v_duration_seconds video) 0 <? min_duration_seconds mode
  | RBlockedCategory =>
      negb (Nat.eqb (List.length (blocked_categories mode)) 0)
      && mem (category classification) (blocked_categories mode)
  | RAllowedCategory =>
      negb (Nat.eqb (List.length (allowed_categories mode)) 0)
      && negb (mem (category classification) (allowed_categories mode))
  | RLanguage =>
      negb (Nat.eqb (List.length (allowed_languages mode)) 0)
      && match v_language video with
         | Some lang =>
             negb (String.eqb lang EmptyString)
             && negb (mem lang (allowed_languages mode))
         | None => false
         end
  | RClickbait =>
      PrimFloat.ltb (max_clickbait_score mode) (clickbait_score classification)
  | REntertainment =>
      PrimFloat.ltb (max_entertainment_score mode)
                    (entertainment_score classification)
  | RKeyword => existsb keyword_hit (blocked_keywords mode)
  end.

(** The text each rule reports. *)
Definition rule_reason (r : Rule) : string :=
  match r with
  | RShorts => shorts_reason
  | RDuration => duration_reason (min_duration_seconds mode)
  | RBlockedCategory => blocked_category_reason (category classification)
  | RAllowedCategory => not_allowed_category_reason (category classification)
  | RLanguage => language_reason (get (v_language video) EmptyString)
  | RClickbait => clickbait_reason (clickbait_score classification)
  | REntertainment => entertainment_reason (entertainment_score classification)
  | RKeyword =>
      keyword_reason
        (get (find keyword_hit (blocked_keywords mode)) EmptyString)
  end.

Definition first_failing_rule : option Rule := find rule_fails rule_order.

End Steps.

End Filter.

(* ================================================================= *)
(** ** [routers/modes.py]: [PRESET_MODES] *)

Module Presets.

(** [FocusMode(user_id=user.id, **preset_data)] once stored: the columns a
    preset leaves out take their defaults. *)
Definition study (mode_id uid : string) : FocusMode :=
  {| id := mode_id; user_id := uid;
     name := "Study Mode";
     is_active := false; is_locked := false; lock_until := None;
     allowed_categories := ["EDUCATION"];
     blocked_categories :=
       ["ENTERTAINMENT"; "COMEDY"; "GAMING"; "MUSIC"; "SCIENCE_TECH"; "HOWTO_STYLE"];
     min_duration_seconds := 180;
     allowed_languages := [];
     max_clickbait_score := 0.5;
     max_entertainment_score := 0.6;
     block_shorts := true;
     block_trending := false;
     daily_time_limit_minutes := None;
     blocked_keywords := ["prank"; "gone wrong"; "challenge"] |}.

Definition deep_work (mode_id uid : string) : FocusMode :=
  {| id := mode_id; user_id := uid;
     name := "Deep Work";
     is_active := false; is_locked := false; lock_until := None;
     allowed_categories := ["EDUCATION"; "SCIENCE_TECH"];
     blocked_categories :=
       ["ENTERTAINMENT"; "COMEDY"; "GAMING"; "NEWS_POLITICS"; "MUSIC"; "SPORTS"];
     min_duration_seconds := 300;
     allowed_languages := [];
     max_clickbait_score := 0.3;
     max_entertainment_score := 0.4;
     block_shorts := true;
     block_trending := true;
     daily_time_limit_minutes := Some 60;
     blocked_keywords := [] |}.

Definition relax (mode_id uid : string) : FocusMode :=
  {| id := mode_id; user_id := uid;
     name := "Relax Mode";
     is_active := false; is_locked := false; lock_until := None;
     allowed_categories := [];
     blocked_categories := ["NEWS_POLITICS"];
     min_duration_seconds := 0;
     allowed_languages := [];
     max_clickbait_score := 0.5;
     max_entertainment_score := 0.8;
     block_shorts := true;
     block_trending := false;
     daily_time_limit_minutes := Some 60;
     blocked_keywords := [] |}.

End Presets.

(* ================================================================= *)
(** ** The worked scenarios of the specification (section 8) *)

Module Scenarios.

Definition bare_video (title : string) (duration : Z) : Video :=
  {| v_title := Some title; v_description := None; v_tags := None;
     v_channel_title := None; v_duration_seconds := Some duration;
     v_is_short := None; v_language := None |}.

(** Scenario A. *)
Definition music_video : Video :=
  bare_video "OFFICIAL MUSIC VIDEO - Song Name" 240.

(** Scenario B. *)
Definition python_tutorial : Video :=
  {| v_title := Some "Python Tutorial for Beginners"; v_description := None;
     v_tags := Some ["python"; "programming"]; v_channel_title := None;
     v_duration_seconds := Some 3600; v_is_short := None;
     v_language := None |}.

(** Scenario C; the metadata source flags videos of at most 60 seconds as
    Shorts. *)
Definition shocking_prank : Video :=
  {| v_title := Some "YOU WON'T BELIEVE THIS SHOCKING PRANK!!!";
     v_description := None; v_tags := None; v_channel_title := None;
     v_duration_seconds := Some 45; v_is_short := Some true;
     v_language := None |}.

(** A video that fails both the Shorts check and the duration check of
    the study preset. *)
Definition short_clip : Video :=
  {| v_title := Some "Quick clip"; v_description := None; v_tags := None;
     v_channel_title := None; v_duration_seconds := Some 45;
     v_is_short := Some true; v_language := None |}.

Definition plain_classification (cat : string) : VideoClassification :=
  {| category := cat; confidence_score := 0.6; entertainment_score := 0.5;
     depth_score := 0.5; clickbait_score := 0.1 |}.

(** What the heuristic classifier returns for [music_video]. *)
Definition music_classification : VideoClassification :=
  {| category := "MUSIC"; confidence_score := 0.6;
     entertainment_score := 0.8; depth_score := 0.2;
     clickbait_score := 0.5 |}.

(** A mode with both category lists empty. *)
Definition open_mode : FocusMode :=
  {| id := "open"; user_id := "user"; name := "Open";
     is_active := true; is_locked := false; lock_until := None;
     allowed_categories := []; blocked_categories := [];
     min_duration_seconds := 0; allowed_languages := [];
     max_clickbait_score := 1.0; max_entertainment_score := 1.0;
     block_shorts := false; block_trending := false;
     daily_time_limit_minutes := None; blocked_keywords := [] |}.

End Scenarios.

(* ================================================================= *)
(** ** [FocusEngine]: focus modes, locks and the daily time limit *)

Module Focus.

(** [models/watch_history.py]: the columns [check_time_limit] reads. *)
Record WatchHistory : Type := {
  wh_user_id : string;
  watch_duration_seconds : Z;
  watched_at : datetime
}.

(** The database session: the rows of [focus_modes] as the session sees
    them (loaded objects, mutated in place), what was last committed, and
    the [watch_history] table. *)
Record Session : Type := {
  rows : list FocusMode;
  committed : list FocusMode;
  history : list WatchHistory
}.

(** What the methods raise. *)
Inductive Message : Type :=
| CannotChangeMode (locked_name : string) (locked_until : option datetime)
    (* [f"Cannot change mode: '{locked.name}' is locked until {locked.lock_until}"] *)
| FocusModeNotFound          (* ["Focus mode not found"] *)
| CanOnlyLockActive.         (* ["Can only lock an active focus mode"] *)

Inductive Exn : Type :=
| ValueError (msg : Message)
| MultipleResultsFound.      (* raised by [scalar_one_or_none] *)

Inductive Result (A : Type) : Type :=
| Ok (a : A)
| Raise (e : Exn).
Arguments Ok {A} a.
Arguments Raise {A} e.

(** Computations over the session that may raise. *)
Definition M (A : Type) : Type := Session -> Result A * Session.

Definition ret {A} (a : A) : M A := fun s => (Ok a, s).
Definition raise {A} (e : Exn) : M A := fun s => (Raise e, s).
Definition bind {A B} (m : M A) (k : A -> M B) : M B :=
  fun s => match m s with
           | (Ok a, s') => k a s'
           | (Raise e, s') => (Raise e, s')
           end.

Notation "x <- m ;; k" := (bind m (fun x => k))
  (at level 61, m at next level, right associativity).
Notation "m ;;; k" := (bind m (fun _ => k))
  (at level 61, right associativity).

(** [db.execute(select(FocusMode).where(p))] followed by [.scalars().all()] *)
Definition select_modes (p : FocusMode -> bool) : M (list FocusMode) :=
  fun s => (Ok (filter p (rows s)), s).

(** [.scalar_one_or_none()] *)
Definition scalar_one_or_none {A} (found : list A) : M (option A) :=
  match found with
  | [] => ret None
  | [x] => ret (Some x)
  | _ :: _ :: _ => raise MultipleResultsFound
  end.

(** [await self.db.commit()] *)
Definition commit : M unit :=
  fun s => (Ok tt, {| rows := rows s; committed := rows s; history := history s |}).

Definition set_rows (f : list FocusMode -> list FocusMode) : M unit :=
  fun s => (Ok tt, {| rows := f (rows s); committed := committed s;
                      history := history s |}).

(** Attribute assignments. *)
Definition with_active (b : bool) (m : FocusMode) : FocusMode :=
  {| id := id m; user_id := user_id m; name := name m;
     is_active := b; is_locked := is_locked m; lock_until := lock_until m;
     allowed_categories := allowed_categories m;
     blocked_categories := blocked_categories m;
     min_duration_seconds := min_duration_seconds m;
     allowed_languages := allowed_languages m;
     max_clickbait_score := max_clickbait_score m;
     max_entertainment_score := max_entertainment_score m;
     block_shorts := block_shorts m; block_trending := block_trending m;
     daily_time_limit_minutes := daily_time_limit_minutes m;
     blocked_keywords := blocked_keywords m |}.

Definition with_lock (locked : bool) (until : option datetime) (m : FocusMode)
    : FocusMode :=
  {| id := id m; user_id := user_id m; name := name m;
     is_active := is_active m; is_locked := locked; lock_until := until;
     allowed_categories := allowed_categories m;
     blocked_categories := blocked_categories m;
     min_duration_seconds := min_duration_seconds m;
     allowed_languages := allowed_languages m;
     max_clickbait_score := max_clickbait_score m;
     max_entertainment_score := max_entertainment_score m;
     block_shorts := block_shorts m; block_trending := block_trending m;
     daily_time_limit_minutes := daily_time_limit_minutes m;
     blocked_keywords := blocked_keywords m |}.

(** Mutating every loaded object a query returned: the rows that satisfy
    the query's condition. *)
Definition update_all (p : FocusMode -> bool) (f : FocusMode -> FocusMode)
    (l : list FocusMode) : list FocusMode :=
  map (fun m => if p m then f m else m) l.

(** Mutating the first object of a query's result. *)
Fixpoint update_first (p : FocusMode -> bool) (f : FocusMode -> FocusMode)
    (l : list FocusMode) : list FocusMode :=
  match l with
  | [] => []
  | m :: l' => if p m then f m :: l' else m :: update_first p f l'
  end.

Section Engine.
(** [self.user.id] *)
Variable uid : string.

Definition owned (m : FocusMode) : bool := String.eqb (user_id m) uid.
Definition owned_locked (m : FocusMode) : bool := owned m && is_locked m.
Definition owned_active (m : FocusMode) : bool := owned m && is_active m.
Definition owned_with_id (mode_id : string) (m : FocusMode) : bool :=
  String.eqb (id m) mode_id && owned m.


(** [_get_locked_mode]; [now] is the reading of [datetime.utcnow()]. *)
Definition _get_locked_mode (now : datetime) : M (option FocusMode) :=
  found <- select_modes owned_locked ;;
  mode <- scalar_one_or_none found ;;
  match mode with
  | Some mode =>
      match lock_until mode with
      | Some until =>
          if now <? until then ret (Some mode)
          else
            (* the selected row is the only one the query matches *)
            set_rows (update_first owned_locked (with_lock false None)) ;;;
            commit ;;;
            ret None
      | None => ret None
      end
  | None => ret None
  end.

(** [activate_mode] *)
Definition deactivate (m : FocusMode) : FocusMode :=
  with_lock false None (with_active false m).

Definition activate_mode (now : datetime) (mode_id : string) : M FocusMode :=
  locked <- _get_locked_mode now ;;
  match locked with
  | Some locked =>
      raise (ValueError (CannotChangeMode (name locked) (lock_until locked)))
  | None =>
      all_modes <- select_modes owned ;;
      (* first loop: the objects of [all_modes] are the session's rows *)
      set_rows (update_all owned deactivate) ;;;
      let all_modes := map deactivate all_modes in
      (* second loop: the first mode whose id is [mode_id] *)
      match find (fun m => String.eqb (id m) mode_id) all_modes with
      | Some mode =>
          set_rows (update_first (owned_with_id mode_id) (with_active true)) ;;;
          commit ;;;
          ret (with_active true mode)
      | None => raise (ValueError FocusModeNotFound)
      end
  end.

(** The rows after the two loops of [activate_mode]. *)
Definition activated (mode_id : string) (l : list FocusMode) : list FocusMode :=
  update_first (owned_with_id mode_id) (with_active true)
    (update_all owned deactivate l).

(** [lock_session]; [minute] is one minute of [timedelta]. *)
Definition minute : Z := 60 * 1000000.

Definition lock_session (now : datetime) (mode_id : string)
    (duration_minutes : Z) : M FocusMode :=
  found <- select_modes (owned_with_id mode_id) ;;
  mode <- scalar_one_or_none found ;;
  match mode with
  | None => raise (ValueError FocusModeNotFound)
  | Some mode =>
      if negb (is_active mode) then raise (ValueError CanOnlyLockActive)
      else
        let until := Some (now + duration_minutes * minute) in
        set_rows (update_first (owned_with_id mode_id) (with_lock true until)) ;;;
        commit ;;;
        ret (with_lock true until mode)
  end.

(** [unlock_session] *)
Definition unlock_session (mode_id : string) : M FocusMode :=
  found <- select_modes (owned_with_id mode_id) ;;
  mode <- scalar_one_or_none found ;;
  match mode with
  | None => raise (ValueError FocusModeNotFound)
  | Some mode =>
      set_rows (update_first (owned_with_id mode_id) (with_lock false None)) ;;;
      commit ;;;
      ret (with_lock false None mode)
  end.

(** The dictionary [check_time_limit] returns. *)
Record TimeLimit : Type := {
  has_limit : bool;
  exceeded : bool;
  used_minutes : Z;
  limit_minutes : option Z;
  remaining_minutes : option Z
}.

Definition day : Z := 24 * 60 * minute.

(** [now.replace(hour=0, minute=0, second=0, microsecond=0)] *)
Definition today_start (now : datetime) : datetime := now - now mod day.

(** [func.sum(column)]: SQL's [SUM] is [NULL] over no rows. *)
Definition sql_sum (l : list Z) : option Z :=
  match l with
  | [] => None
  | _ => Some (fold_right Z.add 0 l)
  end.

(** [x or 0] *)
Definition or_zero (x : option Z) : Z :=
  match x with
  | Some n => if n =? 0 then 0 else n
  | None => 0
  end.

(** [not x] for an optional integer column. *)
Definition falsy (x : option Z) : bool :=
  match x with
  | Some n => n =? 0
  | None => true
  end.

Definition watched_today (now : datetime) (w : WatchHistory) : bool :=
  String.eqb (wh_user_id w) uid && (today_start now <=? watched_at w).

(** [check_time_limit] *)
Definition check_time_limit (now : datetime) (mode : FocusMode) : M TimeLimit :=
  fun s =>
    if falsy (daily_time_limit_minutes mode) then
      (Ok {| has_limit := false; exceeded := false; used_minutes := 0;
             limit_minutes := None; remaining_minutes := None |}, s)
    else
      let limit := get (daily_time_limit_minutes mode) 0 in
      let total_seconds :=
        or_zero (sql_sum (map watch_duration_seconds
                            (filter (watched_today now) (history s)))) in
      let used_minutes := total_seconds / 60 in
      let exceeded := limit <=? used_minutes in
      let remaining := Z.max 0 (limit - used_minutes) in
      (Ok {| has_limit := true; exceeded := exceeded;
             used_minutes := used_minutes;
             limit_minutes := daily_time_limit_minutes mode;
             remaining_minutes := Some remaining |}, s).

(** *** Notions used to state the properties *)

(** A lock is live while [lock_until] lies strictly in the future. *)
Definition live (now : datetime) (m : FocusMode) : bool :=
  match lock_until m with
  | Some until => now <? until
  | None => false
  end.

(** The user has at most one mode flagged as locked.  Only the active
    mode can be locked and activating a mode unlocks all of them, so the
    states the service produces are of this kind. *)
Definition at_most_one_lock (s : Session) : Prop :=
  (List.length (filter owned_locked (rows s)) <= 1)%nat.

(** A stronger property of sessions, kept by every operation of the
    engine: at most one mode of the user is active, and only an active
    mode is flagged as locked. *)
Definition consistent (s : Session) : Prop :=
  (List.length (filter owned_active (rows s)) <= 1)%nat
  /\ forall m, In m (rows s) -> owned_locked m = true -> is_active m = true.

(** Seconds the user watched on the calendar day of [now]. *)
Definition same_day (now : datetime) (w : WatchHistory) : bool :=
  String.eqb (wh_user_id w) uid && (watched_at w / day =? now / day).

Definition seconds_since_midnight_rows (now : datetime) (s : Session) : Z :=
  fold_right Z.add 0
    (map watch_duration_seconds (filter (watched_today now) (history s))).

Definition seconds_watched_on_day (now : datetime) (s : Session) : Z :=
  fold_right Z.add 0
    (map watch_duration_seconds (filter (same_day now) (history s))).

End Engine.

(** Running a computation. *)
Definition result_of {A} (r : Result A * Session) : Result A := fst r.
Definition session_of {A} (r : Result A * Session) : Session := snd r.

End Focus.

(* ================================================================= *)
(** ** [PersonalizationService.get_personalized_ranking] *)

Module Personalization.

(** The keys of a video dictionary the re-ranker reads; [payload] stands
    for every other key, copied unchanged by [{**video, ...}]. *)
Record Item : Type := {
  payload : string;
  i_category : option string;
  i_depth_score : option float;
  i_clickbait_score : option float
}.

(** [{**video, "personalization_score": score}] *)
Record Scored : Type := {
  video : Item;
  personalization_score : float
}.

(** The dictionary [get_user_preferences] returns, as far as it is read. *)
Record Preferences : Type := {
  preferred_categories : list string;
  avoided_categories : list string
}.

Definition score_of (preferences : Preferences) (v : Item) : float :=
  let score := 1.0%float in
  let category := get (i_category v) EmptyString in
  let score :=
    if mem category (preferred_categories preferences)
    then (score + 0.5)%float else score in
  let score :=
    if mem category (avoided_categories preferences)
    then (score - 0.5)%float else score in
  let depth := get (i_depth_score v) 0.5%float in
  let score := (score + depth * 0.3)%float in
  let clickbait := get (i_clickbait_score v) 0%float in
  let score := (score - clickbait * 0.4)%float in
  score.

(** [sorted(xs, key=key, reverse=True)].  The sort is stable and compares
    keys with [<] only; with [reverse=True] the list is reversed, sorted
    in ascending order and reversed again.  The stable sort is given as
    insertion from the right. *)
Section Sorted.
Context {A : Type}.
Variable key : A -> float.

Fixpoint insert (x : A) (l : list A) : list A :=
  match l with
  | [] => [x]
  | y :: l' =>
      if PrimFloat.ltb (key y) (key x) then y :: insert x l'
      else x :: y :: l'
  end.

Definition sort_stable (l : list A) : list A := fold_right insert [] l.

Definition sorted_reverse (l : list A) : list A := rev (sort_stable (rev l)).

(** Notions used to state what the sort achieves: a key that can be
    compared (it is not a NaN), two items in ascending and in descending
    order of key, and an item whose key equals [k]. *)
Definition comparable (x : A) : Prop := PrimFloat.is_nan (key x) = false.
Definition ascending (a b : A) : Prop := PrimFloat.ltb (key b) (key a) = false.
Definition descending (a b : A) : Prop := PrimFloat.leb (key b) (key a) = true.
Definition ties (k : float) (x : A) : bool := PrimFloat.eqb (key x) k.
End Sorted.

(** [{**video, "personalization_score": score}] for the score computed in
    the loop. *)
Definition annotate (preferences : Preferences) (v : Item) : Scored :=
  {| video := v; personalization_score := score_of preferences v |}.

Definition get_personalized_ranking (preferences : Preferences)
    (videos : list Item) : list Scored :=
  let scored_videos := map (annotate preferences) videos in
  sorted_reverse personalization_score scored_videos.

(** A video dictionary that carries the fields of its classification. *)
Definition item_of (title : string) (c : VideoClassification) : Item :=
  {| payload := title;
     i_category := Some (category c);
     i_depth_score := Some (depth_score c);
     i_clickbait_score := Some (clickbait_score c) |}.

(** The score as the specification writes it. *)
Definition spec_score (preferred avoided : bool) (depth clickbait : float)
    : float :=
  let base := 1.0%float in
  let base := if preferred then (base + 0.5)%float else base in
  let base := if avoided then (base - 0.5)%float else base in
  (base + depth * 0.3 - clickbait * 0.4)%float.

End Personalization.

(* ================================================================= *)
(** ** The order of floats that are not NaN *)

Module FloatOrder.

(** A position on a line for every float that is not a NaN: its class
    (negative infinity, negative, zero, positive, positive infinity), then
    its exponent, then its mantissa. *)
Definition rank (x : spec_float) : Z * Z * Z :=
  match x with
  | S754_nan => (0, 0, 0)
  | S754_zero _ => (0, 0, 0)
  | S754_infinity true => (-2, 0, 0)
  | S754_infinity false => (2, 0, 0)
  | S754_finite true m e => (-1, - e, - Z.pos m)
  | S754_finite false m e => (1, e, Z.pos m)
  end.

Definition lex_lt (a b : Z * Z * Z) : Prop :=
  let '(a1, a2, a3) := a in
  let '(b1, b2, b3) := b in
  a1 < b1 \/ (a1 = b1 /\ (a2 < b2 \/ (a2 = b2 /\ a3 < b3))).

Definition not_nan (x : spec_float) : Prop := x <> S754_nan.

(** The same on primitive floats. *)
Definition frank (x : float) : Z * Z * Z := rank (Prim2SF x).

End FloatOrder.

(* ================================================================= *)
(** ** A candidate list used to exercise the re-ranker *)

Module RankingScenarios.
Import Personalization.

Definition preferences : Preferences :=
  {| preferred_categories := ["EDUCATION"];
     avoided_categories := ["COMEDY"] |}.

Definition item (title cat : string) (depth clickbait : float) : Item :=
  {| payload := title; i_category := Some cat;
     i_depth_score := Some depth; i_clickbait_score := Some clickbait |}.

Definition prank : Item := item "prank" "COMEDY" 0.1 0.7.
Definition vlog_one : Item := item "vlog one" "ENTERTAINMENT" 0.5 0.1.
Definition lecture : Item := item "lecture" "EDUCATION" 0.8 0.1.
Definition vlog_two : Item := item "vlog two" "ENTERTAINMENT" 0.5 0.1.

Definition candidates : list Item := [prank; vlog_one; lecture; vlog_two].

End RankingScenarios.

(* ================================================================= *)
(** ** Sessions used to exercise the focus engine *)

Module SessionScenarios.
Import Focus.

Definition now : datetime := 1700000000 * 1000000.

(** Scenario D: the study mode is active and locked for another thirty
    minutes; the relax mode is the one the user tries to activate. *)
Definition locked_study : FocusMode :=
  with_lock true (Some (now + 30 * minute))
    (with_active true (Presets.study "study" "user")).

Definition relax : FocusMode := Presets.relax "relax" "user".

(** A minute after the lock of [locked_study] has expired. *)
Definition later : datetime := now + 31 * minute.

Definition locked_session : Session :=
  {| rows := [locked_study; relax];
     committed := [locked_study; relax];
     history := [] |}.

(** A session without locks, in which the study mode is active. *)
Definition free_session : Session :=
  {| rows := [with_active true (Presets.study "study" "user"); relax];
     committed := [with_active true (Presets.study "study" "user"); relax];
     history := [] |}.

(** Scenario E: seventy minutes watched today, in two sittings. *)
Definition busy_history : list WatchHistory :=
  [ {| wh_user_id := "user"; watch_duration_seconds := 3000;
       watched_at := now - 2 * 60 * minute |};
    {| wh_user_id := "user"; watch_duration_seconds := 1200;
       watched_at := now - 10 * minute |} ].

Definition busy_session : Session :=
  {| rows := [relax]; committed := [relax]; history := busy_history |}.

(** A mode whose daily limit is set to zero minutes. *)
Definition zero_limit_mode : FocusMode :=
  {| id := "zero"; user_id := "user"; name := "Zero";
     is_active := true; is_locked := false; lock_until := None;
     allowed_categories := []; blocked_categories := [];
     min_duration_seconds := 0; allowed_languages := [];
     max_clickbait_score := 1.0; max_entertainment_score := 1.0;
     block_shorts := false; block_trending := false;
     daily_time_limit_minutes := Some 0; blocked_keywords := [] |}.

End SessionScenarios.

(* ================================================================= *)
(** ** Further modes and videos used to exercise the services *)

Module MoreScenarios.

(** The open mode of [Scenarios], with the empty string among its blocked
    keywords. *)
Definition gagged_mode : FocusMode :=
  {| id := "gagged"; user_id := "user"; name := "Gagged";
     is_active := true; is_locked := false; lock_until := None;
     allowed_categories := []; blocked_categories := [];
     min_duration_seconds := 0; allowed_languages := [];
     max_clickbait_score := 1.0; max_entertainment_score := 1.0;
     block_shorts := false; block_trending := false;
     daily_time_limit_minutes := None;
     blocked_keywords := [EmptyString] |}.

(** Preferences in which EDUCATION is both preferred and avoided. *)
Definition torn_preferences : Personalization.Preferences :=
  {| Personalization.preferred_categories := ["EDUCATION"; "MUSIC"];
     Personalization.avoided_categories := ["COMEDY"; "EDUCATION"] |}.

End MoreScenarios.


(* ================================================================= *)
(** ** The heuristic classifier: the text it scans and its priorities *)

Module ClassifierPriority.
Import Classifier.

(** The lower-cased channel name and the combined text of a video, as
    [_fallback_classification] builds them. *)
Definition channel_of `{StrOps} (video : Video) : string :=
  lower (get (v_channel_title video) EmptyString).

Definition text_of `{StrOps} (video : Video) : string :=
  combined_text (lower (get (v_title video) EmptyString))
    (map lower (get (v_tags video) []))
    (take 500 (lower (get (v_description video) EmptyString)))
    (channel_of video).

(** Which keyword lists occur in a video. *)
Record Matches : Type := {
  music : bool;
  gaming : bool;
  comedy : bool;
  education : bool;
  tech : bool;
  howto : bool
}.

Definition matches_of `{StrOps} (video : Video) : Matches :=
  {| music := any_in music_keywords (text_of video)
              || any_in music_channel_indicators (channel_of video);
     gaming := any_in gaming_keywords (text_of video);
     comedy := any_in comedy_keywords (text_of video);
     education := any_in education_keywords (text_of video);
     tech := any_in tech_keywords (text_of video);
     howto := any_in howto_keywords (text_of video) |}.

(** The category of the first list, in priority order, that occurs. *)
Definition first_matching_category (m : Matches) : string :=
  if music m then "MUSIC"
  else if gaming m then "GAMING"
  else if comedy m then "COMEDY"
  else if education m then "EDUCATION"
  else if tech m then "SCIENCE_TECH"
  else if howto m then "HOWTO_STYLE"
  else "ENTERTAINMENT".

End ClassifierPriority.

(* ================================================================= *)
(** * Properties *)

(* ================================================================= *)
(** ** The heuristic classifier *)

Module ClassifierFacts.
Import Classifier.

Ltac pick_member :=
  repeat first [ left; reflexivity | right ].

Lemma cascade_cases (text channel : string) :
  In (cascade text channel) cascade_outcomes.
Proof.
  unfold cascade, stage.
  generalize (any_in music_keywords text) (any_in music_channel_indicators channel)
             (any_in gaming_keywords text) (any_in comedy_keywords text)
             (any_in general_entertainment text) (any_in education_keywords text)
             (any_in tech_keywords text) (any_in howto_keywords text).
  intros [] [] [] [] [] [] [] []; vm_compute; pick_member.
Qed.

Lemma adjust_duration_well_formed (duration : Z) (st : Cascade) :
  In st cascade_outcomes -> well_formed (adjust_duration duration st).
Proof.
  unfold adjust_duration.
  generalize (duration <? 60) (1200 <? duration).
  intros b1 b2 Hin.
  repeat (destruct Hin as [<- | Hin]; [ | ]); try contradiction;
    destruct b1, b2; vm_compute; (split; [ pick_member | repeat split ]).
Qed.

Lemma clickbait_unit_interval `{StrOps} (text original_title : string) :
  unit_interval (clickbait text original_title).
Proof.
  unfold clickbait.
  generalize (any_in clickbait_patterns text) (caps_ratio_high original_title)
    (contains "!!!" original_title || contains "???" original_title
     || contains "ðŸ”´" original_title).
  intros [] [] []; vm_compute; split; reflexivity.
Qed.

Lemma adjust_duration_cases (duration : Z) (st : Cascade) :
  In st cascade_outcomes -> In (adjust_duration duration st) adjusted_outcomes.
Proof.
  unfold adjust_duration.
  generalize (duration <? 60) (1200 <? duration).
  intros b1 b2 Hin.
  repeat (destruct Hin as [<- | Hin]; [ | ]); try contradiction;
    destruct b1, b2; vm_compute; pick_member.
Qed.

Lemma clickbait_cases `{StrOps} (text original_title : string) :
  In (clickbait text original_title) clickbait_outcomes.
Proof.
  unfold clickbait.
  generalize (any_in clickbait_patterns text) (caps_ratio_high original_title)
    (contains "!!!" original_title || contains "???" original_title
     || contains "ðŸ”´" original_title).
  intros [] [] []; vm_compute; pick_member.
Qed.

(** What a classification is made of. *)
Lemma fallback_classification_fields `{StrOps} (video : Video)
    (c : VideoClassification) :
  _fallback_classification video = Some c ->
  exists st click,
    In st adjusted_outcomes /\ In click clickbait_outcomes
    /\ c = {| category := c_category st; confidence_score := 0.6;
              entertainment_score := c_entertainment st;
              depth_score := c_depth st; clickbait_score := click |}.
Proof.
  unfold _fallback_classification.
  set (text := combined_text _ _ _ _).
  set (channel := lower (get (v_channel_title video) _)).
  set (duration := get (v_duration_seconds video) 0).
  pose proof (adjust_duration_cases duration _ (cascade_cases text channel)) as Hst.
  pose proof (clickbait_cases text (get (v_title video) EmptyString)) as Hclick.
  unfold VideoClassification_new. destruct (_ && _); [ | discriminate ].
  intros [= <-]. eauto.
Qed.

Lemma unit_interval_field_ok (x : float) : unit_interval x -> field_ok x = true.
Proof.
  intros [H0 H1]. unfold field_ok. now rewrite H0, H1.
Qed.

(** C1. Whatever the video, the heuristic classifier produces a
    classification (the schema's range validation never rejects it); its
    confidence, entertainment, depth and clickbait scores lie in [0, 1],
    bounds included, and its category is one of ENTERTAINMENT, MUSIC,
    GAMING, COMEDY, EDUCATION, SCIENCE_TECH, HOWTO_STYLE. *)
Theorem fallback_classification_well_formed `{StrOps} (video : Video) :
  exists c : VideoClassification,
    _fallback_classification video = Some c
    /\ unit_interval (confidence_score c)
    /\ unit_interval (entertainment_score c)
    /\ unit_interval (depth_score c)
    /\ unit_interval (clickbait_score c)
    /\ In (category c) output_categories.
Proof.
  unfold _fallback_classification.
  set (text := combined_text _ _ _ _).
  set (channel := lower (get (v_channel_title video) _)).
  set (duration := get (v_duration_seconds video) 0).
  pose proof (adjust_duration_well_formed duration _ (cascade_cases text channel))
    as (Hcat & Hent & Hdep).
  pose proof (clickbait_unit_interval text (get (v_title video) EmptyString))
    as Hclick.
  assert (Hconf : unit_interval 0.6) by (split; reflexivity).
  unfold VideoClassification_new.
  rewrite (unit_interval_field_ok _ Hconf), (unit_interval_field_ok _ Hent),
    (unit_interval_field_ok _ Hdep), (unit_interval_field_ok _ Hclick).
  simpl. eexists; split; [ reflexivity | simpl; auto ].
Qed.

End ClassifierFacts.

(* ================================================================= *)
(** ** The policy engine *)

Module FilterFacts.
Import Filter.

Lemma append_cancel_l (s a b : string) : s ++ a = s ++ b -> a = b.
Proof.
  induction s as [| c s IH]; simpl; intros Heq; [ exact Heq | ].
  injection Heq as Heq. now apply IH.
Qed.

Lemma truthy_length {A} (l : list A) :
  truthy l = negb (Nat.eqb (List.length l) 0).
Proof. now destruct l. Qed.

Lemma truthy_nil {A} (l : list A) : truthy l = false <-> l = [].
Proof. destruct l; simpl; split; congruence. Qed.

Lemma mem_In (x : string) (xs : list string) : mem x xs = true <-> In x xs.
Proof.
  unfold mem. rewrite existsb_exists. split.
  - intros (y & Hin & Heq). apply String.eqb_eq in Heq. now subst.
  - intros Hin. exists x. split; [ exact Hin | apply String.eqb_refl ].
Qed.

Lemma find_existsb {A} (p : A -> bool) (l : list A) :
  existsb p l = match find p l with Some _ => true | None => false end.
Proof.
  induction l as [| a l IH]; simpl; [ reflexivity | ].
  destruct (p a); simpl; [ reflexivity | exact IH ].
Qed.

(** The two category reasons differ, whatever the category. *)
Lemma category_reasons_differ (cat : string) :
  blocked_category_reason cat <> not_allowed_category_reason cat.
Proof.
  unfold blocked_category_reason, not_allowed_category_reason. intros Heq.
  apply append_cancel_l in Heq. apply append_cancel_l in Heq. discriminate.
Qed.

Ltac first_char_differs :=
  let Heq := fresh in
  intros Heq;
  unfold shorts_reason, duration_reason, blocked_category_reason,
    not_allowed_category_reason, language_reason, clickbait_reason,
    entertainment_reason, keyword_reason in Heq;
  cbn [append] in Heq; discriminate Heq.

Section Facts.
Context `{StrOps}.
Variable mode : FocusMode.
Variable video : Video.
Variable classification : VideoClassification.

(** Reasons of different rules are different texts. *)
Lemma rule_reason_injective (r1 r2 : Rule) :
  rule_reason mode video classification r1
    = rule_reason mode video classification r2 -> r1 = r2.
Proof.
  destruct r1, r2; try reflexivity; unfold rule_reason;
    try (intros Heq; exfalso; revert Heq; first_char_differs);
    intros Heq; exfalso.
  - now apply category_reasons_differ in Heq.
  - symmetry in Heq. now apply category_reasons_differ in Heq.
Qed.

Lemma rule_reason_nonempty (r : Rule) :
  rule_reason mode video classification r <> EmptyString.
Proof. destruct r; first_char_differs. Qed.

(** The steps of the code and the rules of the specification agree. *)
Lemma check_shorts_rule :
  check_shorts mode video
  = if rule_fails mode video classification RShorts
    then Some (block (rule_reason mode video classification RShorts))
    else None.
Proof. reflexivity. Qed.

Lemma check_duration_rule :
  check_duration mode video
  = if rule_fails mode video classification RDuration
    then Some (block (rule_reason mode video classification RDuration))
    else None.
Proof. reflexivity. Qed.

Lemma check_blocked_categories_rule :
  check_blocked_categories mode classification
  = if rule_fails mode video classification RBlockedCategory
    then Some (block (rule_reason mode video classification RBlockedCategory))
    else None.
Proof.
  unfold check_blocked_categories, rule_fails.
  now rewrite truthy_length.
Qed.

Lemma check_allowed_categories_rule :
  check_allowed_categories mode classification
  = if rule_fails mode video classification RAllowedCategory
    then Some (block (rule_reason mode video classification RAllowedCategory))
    else None.
Proof.
  unfold check_allowed_categories, rule_fails.
  now rewrite truthy_length.
Qed.

Lemma check_language_rule :
  check_language mode video
  = if rule_fails mode video classification RLanguage
    then Some (block (rule_reason mode video classification RLanguage))
    else None.
Proof.
  unfold check_language, rule_fails, rule_reason.
  rewrite truthy_length.
  destruct (negb (Nat.eqb (List.length (allowed_languages mode)) 0)); simpl;
    [ | reflexivity ].
  destruct (v_language video) as [[| c lang] |]; reflexivity.
Qed.

Lemma check_clickbait_rule :
  check_clickbait mode classification
  = if rule_fails mode video classification RClickbait
    then Some (block (rule_reason mode video classification RClickbait))
    else None.
Proof. reflexivity. Qed.

Lemma check_entertainment_rule :
  check_entertainment mode classification
  = if rule_fails mode video classification REntertainment
    then Some (block (rule_reason mode video classification REntertainment))
    else None.
Proof. reflexivity. Qed.

Lemma check_keywords_rule :
  check_keywords mode video
  = if rule_fails mode video classification RKeyword
    then Some (block (rule_reason mode video classification RKeyword))
    else None.
Proof.
  unfold check_keywords, rule_fails, rule_reason.
  rewrite find_existsb.
  destruct (blocked_keywords mode) as [| kw kws] eqn:Hkws; [ reflexivity | ].
  change (truthy (kw :: kws)) with true. cbv iota.
  destruct (find (keyword_hit video) (kw :: kws)); reflexivity.
Qed.

(** [check_video] reports the first rule of the specification's list
    that rejects, and admits the video when none does. *)
Lemma check_video_first_failing_rule :
  check_video mode video classification
  = match first_failing_rule mode video classification with
    | Some r => block (rule_reason mode video classification r)
    | None => allow
    end.
Proof.
  unfold check_video, first_failing_rule, rule_order.
  rewrite check_shorts_rule, check_duration_rule,
    check_blocked_categories_rule, check_allowed_categories_rule,
    check_language_rule, check_clickbait_rule, check_entertainment_rule,
    check_keywords_rule.
  cbn [find or_else].
  repeat match goal with
         | |- context [rule_fails ?m ?v ?c ?r] =>
             destruct (rule_fails m v c r); cbn [or_else]; try reflexivity
         end.
Qed.

End Facts.

(** C2. The Shorts check precedes the duration check: when the mode
    blocks Shorts, the video is flagged as a Short and its duration is
    below the mode's minimum, the verdict is blocked with the Shorts
    reason, although the duration check alone would reject the video too,
    with a different reason. *)
Theorem shorts_reason_precedes_duration_reason `{StrOps}
    (mode : FocusMode) (video : Video) (classification : VideoClassification) :
  block_shorts mode = true ->
  get (v_is_short video) false = true ->
  get (v_duration_seconds video) 0 < min_duration_seconds mode ->
  check_video mode video classification = block shorts_reason
  /\ check_duration mode video
     = Some (block (duration_reason (min_duration_seconds mode)))
  /\ shorts_reason <> duration_reason (min_duration_seconds mode).
Proof.
  intros Hblock Hshort Hdur. repeat split.
  - unfold check_video, check_shorts. now rewrite Hblock, Hshort.
  - unfold check_duration. apply Z.ltb_lt in Hdur. now rewrite Hdur.
  - first_char_differs.
Qed.

Lemma shorts_reason_precedes_duration_reason_witness :
  check_video (H := ascii_ops) (Presets.study "study" "user")
    Scenarios.short_clip (Scenarios.plain_classification "EDUCATION")
  = block shorts_reason
  /\ check_duration (Presets.study "study" "user") Scenarios.short_clip
     = Some (block (duration_reason 180))
  /\ shorts_reason <> duration_reason 180.
Proof.
  apply (shorts_reason_precedes_duration_reason (H := ascii_ops)
           (Presets.study "study" "user") Scenarios.short_clip
           (Scenarios.plain_classification "EDUCATION"));
    [ reflexivity | reflexivity | simpl; lia ].
Defined.

(** C3. An empty [allowed_categories] list allows any category.  With
    both category lists empty neither category check rejects, and the
    verdict never carries a category reason.  The allowed-categories check
    rejects exactly when the list is non-empty and does not contain the
    classification's category.  The blocked-categories check comes first:
    a category on the blocked list is reported as blocked, whatever the
    allowed list says. *)
Theorem empty_allowed_categories_allow_any `{StrOps}
    (mode : FocusMode) (video : Video) (classification : VideoClassification) :
  (allowed_categories mode = [] -> blocked_categories mode = [] ->
     check_blocked_categories mode classification = None
     /\ check_allowed_categories mode classification = None
     /\ forall cat,
          reason (check_video mode video classification)
            <> Some (blocked_category_reason cat)
          /\ reason (check_video mode video classification)
            <> Some (not_allowed_category_reason cat))
  /\ (check_allowed_categories mode classification <> None
      <-> allowed_categories mode <> []
          /\ ~ In (category classification) (allowed_categories mode))
  /\ (check_allowed_categories mode classification <> None ->
      check_allowed_categories mode classification
      = Some (block (not_allowed_category_reason (category classification))))
  /\ (check_shorts mode video = None -> check_duration mode video = None ->
      In (category classification) (blocked_categories mode) ->
      check_video mode video classification
      = block (blocked_category_reason (category classification))).
Proof.
  split; [ | split; [ | split ] ].
  - intros Hallowed Hblocked.
    assert (Hb : check_blocked_categories mode classification = None)
      by (unfold check_blocked_categories; now rewrite Hblocked).
    assert (Ha : check_allowed_categories mode classification = None)
      by (unfold check_allowed_categories; now rewrite Hallowed).
    repeat split; [ exact Hb | exact Ha | | ];
      rewrite check_video_first_failing_rule;
      unfold first_failing_rule, rule_order; cbn [find];
      rewrite check_blocked_categories_rule with (video := video) in Hb;
      rewrite check_allowed_categories_rule with (video := video) in Ha;
      destruct (rule_fails mode video classification RBlockedCategory);
      try discriminate Hb;
      destruct (rule_fails mode video classification RAllowedCategory);
      try discriminate Ha;
      repeat match goal with
             | |- context [rule_fails ?m ?v ?c ?r] =>
                 destruct (rule_fails m v c r)
             end;
      cbn [reason block allow rule_reason]; try discriminate;
      intros Heq; injection Heq; first_char_differs.
  - unfold check_allowed_categories.
    destruct (truthy (allowed_categories mode)) eqn:Hne;
      destruct (mem (category classification) (allowed_categories mode)) eqn:Hmem;
      cbn [andb negb]; split;
      try (intros Hn; now contradiction Hn);
      try discriminate.
    + intros [_ Hnot]. apply mem_In in Hmem. contradiction.
    + intros _. split.
      * intros Hnil. apply truthy_nil in Hnil. congruence.
      * intros Hin. apply mem_In in Hin. congruence.
    + intros [Hnonnil _]. apply truthy_nil in Hne. contradiction.
    + intros [Hnonnil _]. apply truthy_nil in Hne. contradiction.
  - unfold check_allowed_categories.
    destruct (_ && _); [ reflexivity | intros Hn; now contradiction Hn ].
  - intros Hshorts Hduration Hin.
    unfold check_video. rewrite Hshorts, Hduration. cbn [or_else].
    unfold check_blocked_categories.
    apply mem_In in Hin. rewrite Hin.
    destruct (blocked_categories mode); [ discriminate Hin | reflexivity ].
Qed.

(** C4. Every verdict is either "allowed" without a reason, when no rule
    rejects, or "blocked" with the reason of the first rule, in the
    specification's order, that rejects; that reason is a non-empty text
    which no other rule reports. *)
Theorem check_video_verdict_unambiguous `{StrOps}
    (mode : FocusMode) (video : Video) (classification : VideoClassification) :
  let verdict := check_video mode video classification in
  (allowed verdict = true /\ reason verdict = None
   /\ first_failing_rule mode video classification = None)
  \/ (allowed verdict = false
      /\ exists r why,
          first_failing_rule mode video classification = Some r
          /\ reason verdict = Some why
          /\ why = rule_reason mode video classification r
          /\ why <> EmptyString
          /\ forall r', rule_reason mode video classification r' = why -> r' = r).
Proof.
  intros verdict. unfold verdict.
  rewrite check_video_first_failing_rule.
  destruct (first_failing_rule mode video classification) as [r |].
  - right. split; [ reflexivity | ].
    exists r, (rule_reason mode video classification r).
    repeat split.
    + apply rule_reason_nonempty.
    + intros r'. apply rule_reason_injective.
  - left. repeat split.
Qed.

Lemma find_first {A} (p : A -> bool) (l : list A) (x : A) :
  find p l = Some x ->
  exists before after,
    l = (before ++ x :: after)%list /\ p x = true
    /\ forall y, In y before -> p y = false.
Proof.
  induction l as [| a l IH]; simpl; [ discriminate | ].
  destruct (p a) eqn:Hpa.
  - intros [= <-]. exists [], l. repeat split; [ exact Hpa | intros y [] ].
  - intros Hfind. destruct (IH Hfind) as (before & after & -> & Hpx & Hbefore).
    exists (a :: before), after. repeat split; [ exact Hpx | ].
    intros y [<- | Hin]; [ exact Hpa | now apply Hbefore ].
Qed.

(** What "first failing rule" means: the rule rejects and no rule listed
    before it does. *)
Lemma first_failing_rule_is_first `{StrOps}
    (mode : FocusMode) (video : Video) (classification : VideoClassification)
    (r : Rule) :
  first_failing_rule mode video classification = Some r ->
  exists before after,
    rule_order = (before ++ r :: after)%list
    /\ rule_fails mode video classification r = true
    /\ forall r', In r' before -> rule_fails mode video classification r' = false.
Proof. apply find_first. Qed.

(** The example of the specification: with both category lists empty a
    video classified ENTERTAINMENT passes both category checks, and is
    admitted.  Under the study preset, whose two lists both reject MUSIC,
    the blocked list speaks first. *)
Lemma empty_allowed_categories_allow_any_witness :
  (check_blocked_categories Scenarios.open_mode
     (Scenarios.plain_classification "ENTERTAINMENT") = None
   /\ check_allowed_categories Scenarios.open_mode
        (Scenarios.plain_classification "ENTERTAINMENT") = None
   /\ check_video (H := ascii_ops) Scenarios.open_mode
        (Scenarios.bare_video "Evening vlog" 300)
        (Scenarios.plain_classification "ENTERTAINMENT")
      = allow)
  /\ (check_allowed_categories (Presets.study "study" "user")
        Scenarios.music_classification
      = Some (block (not_allowed_category_reason "MUSIC"))
      /\ check_video (H := ascii_ops) (Presets.study "study" "user")
           Scenarios.music_video Scenarios.music_classification
         = block (blocked_category_reason "MUSIC")).
Proof.
  split.
  - destruct (proj1 (empty_allowed_categories_allow_any (H := ascii_ops)
                       Scenarios.open_mode
                       (Scenarios.bare_video "Evening vlog" 300)
                       (Scenarios.plain_classification "ENTERTAINMENT"))
                eq_refl eq_refl) as (Hblocked & Hallowed & _).
    repeat split; assumption.
  - destruct (proj2 (empty_allowed_categories_allow_any (H := ascii_ops)
                       (Presets.study "study" "user") Scenarios.music_video
                       Scenarios.music_classification))
      as (_ & Hallowed & Hfirst).
    split.
    + apply Hallowed. discriminate.
    + apply Hfirst; [ reflexivity | reflexivity | simpl; auto ].
Defined.

End FilterFacts.

(* ================================================================= *)
(** ** Scenario A: a music video under the study preset *)

Module ScenarioFacts.
Import Classifier Filter.

(** C8 fails as stated: the study preset does block the music video of
    scenario A, but the reason it reports is the one of the
    blocked-categories check, not the "is not allowed" reason of the
    allowed-categories check. *)
Lemma scenario_A_reason_is_not_the_allow_list_reason :
  exists c,
    _fallback_classification (H := ascii_ops) Scenarios.music_video = Some c
    /\ category c = "MUSIC"
    /\ reason (check_video (H := ascii_ops) (Presets.study "study" "user")
                 Scenarios.music_video c)
       = Some "Category 'MUSIC' is blocked in this focus mode"
    /\ reason (check_video (H := ascii_ops) (Presets.study "study" "user")
                 Scenarios.music_video c)
       <> Some (not_allowed_category_reason "MUSIC").
Proof.
  exists Scenarios.music_classification.
  split; [ vm_compute; reflexivity | ].
  split; [ reflexivity | ].
  split; [ vm_compute; reflexivity | ].
  vm_compute. discriminate.
Qed.

(** C8, amended: for the title "OFFICIAL MUSIC VIDEO - Song Name" with a
    duration of 240 seconds the heuristic classifier yields MUSIC, and
    under the study preset the policy engine blocks the video with the
    reason "Category 'MUSIC' is blocked in this focus mode": MUSIC is on
    the preset's blocked list, and that list is checked before the
    allowed list. *)
Theorem scenario_A_music_is_blocked (mode_id uid : string) :
  exists c,
    _fallback_classification (H := ascii_ops) Scenarios.music_video = Some c
    /\ category c = "MUSIC"
    /\ In "MUSIC" (blocked_categories (Presets.study mode_id uid))
    /\ check_video (H := ascii_ops) (Presets.study mode_id uid)
         Scenarios.music_video c
       = block "Category 'MUSIC' is blocked in this focus mode".
Proof.
  exists Scenarios.music_classification.
  split; [ vm_compute; reflexivity | ].
  split; [ reflexivity | ].
  split; [ simpl; auto | reflexivity ].
Qed.

(** Scenario B: a long Python tutorial is classified EDUCATION with the
    default clickbait score and admitted by the deep-work preset. *)
Example scenario_B_tutorial_is_admitted :
  exists c,
    _fallback_classification (H := ascii_ops) Scenarios.python_tutorial = Some c
    /\ category c = "EDUCATION"
    /\ clickbait_score c = 0.1%float
    /\ check_video (H := ascii_ops) (Presets.deep_work "deep" "user")
         Scenarios.python_tutorial c
       = allow.
Proof.
  eexists. split; [ vm_compute; reflexivity | ].
  repeat split.
Qed.

(** Scenario C: the prank video gets a clickbait score of 0.7 and an
    entertainment score of 0.8, and the relax preset blocks it at the
    Shorts check. *)
Example scenario_C_short_is_blocked_first :
  exists c,
    _fallback_classification (H := ascii_ops) Scenarios.shocking_prank = Some c
    /\ clickbait_score c = 0.7%float
    /\ entertainment_score c = 0.8%float
    /\ check_video (H := ascii_ops) (Presets.relax "relax" "user")
         Scenarios.shocking_prank c
       = block shorts_reason.
Proof.
  eexists. split; [ vm_compute; reflexivity | ].
  repeat split.
Qed.

(** The score formatting of the reasons. *)
Example clickbait_reason_text :
  clickbait_reason 0.7 = "Video detected as clickbait (score: 0.70)"
  /\ format_2f 0.125 = "0.12" /\ format_2f 0.675 = "0.68"
  /\ format_2f 1 = "1.00" /\ format_2f 0 = "0.00".
Proof. repeat split. Qed.

End ScenarioFacts.

(* ================================================================= *)
(** ** The focus engine: locks and activation *)

Module FocusFacts.
Import Focus.

Section Lists.
Context {A : Type}.
Variable p : A -> bool.

Lemma filter_at_most_one (l : list A) (x : A) :
  (List.length (filter p l) <= 1)%nat -> In x l -> p x = true ->
  filter p l = [x].
Proof.
  induction l as [| a l IH]; simpl; intros Hlen Hin Hpx; [ contradiction | ].
  destruct (p a) eqn:Hpa.
  - simpl in Hlen.
    destruct (filter p l) as [| b k] eqn:Hfilter; [ | simpl in Hlen; lia ].
    destruct Hin as [-> | Hin]; [ reflexivity | ].
    assert (Hx : In x (filter p l)) by (apply filter_In; now split).
    rewrite Hfilter in Hx. contradiction.
  - destruct Hin as [-> | Hin]; [ congruence | now apply IH ].
Qed.

Lemma filter_nil_forall (l : list A) :
  filter p l = [] <-> forall x, In x l -> p x = false.
Proof.
  induction l as [| a l IH]; simpl.
  - split; [ intros _ x [] | reflexivity ].
  - destruct (p a) eqn:Hpa; split.
    + discriminate.
    + intros Hall. specialize (Hall a (or_introl eq_refl)). congruence.
    + intros Hnil x [<- | Hin]; [ exact Hpa | now apply IH ].
    + intros Hall. apply IH. intros x Hin. apply Hall. now right.
Qed.
End Lists.

Section Updates.
Variable p : FocusMode -> bool.
Variable f : FocusMode -> FocusMode.

Lemma update_first_In (l : list FocusMode) (x : FocusMode) :
  In x (update_first p f l) -> In x l \/ exists y, In y l /\ x = f y.
Proof.
  induction l as [| a l IH]; simpl; [ tauto | ].
  destruct (p a); simpl.
  - intros [<- | Hin]; [ right; exists a; auto | auto ].
  - intros [<- | Hin]; [ auto | ].
    destruct (IH Hin) as [Hl | (y & Hy & ->)]; [ auto | ].
    right. exists y. auto.
Qed.

Lemma update_first_hit (l : list FocusMode) (x : FocusMode) :
  In x l -> p x = true ->
  (List.length (filter p l) <= 1)%nat -> In (f x) (update_first p f l).
Proof.
  induction l as [| a l IH]; simpl; intros Hin Hpx Hlen; [ contradiction | ].
  destruct (p a) eqn:Hpa.
  - simpl in Hlen. destruct Hin as [-> | Hin]; [ now left | ].
    assert (Hx : In x (filter p l)) by (apply filter_In; now split).
    destruct (filter p l); [ contradiction | simpl in Hlen; lia ].
  - destruct Hin as [-> | Hin]; [ congruence | ].
    right. now apply IH.
Qed.

Lemma update_first_clears (l : list FocusMode) :
  (forall x, p (f x) = false) ->
  (List.length (filter p l) <= 1)%nat ->
  filter p (update_first p f l) = [].
Proof.
  intros Hf. induction l as [| a l IH]; simpl; intros Hlen; [ reflexivity | ].
  destruct (p a) eqn:Hpa; simpl.
  - rewrite Hf. simpl in Hlen.
    destruct (filter p l); [ reflexivity | simpl in Hlen; lia ].
  - rewrite Hpa. now apply IH.
Qed.
End Updates.

Section Engine.
Variable uid : string.
Variable now : datetime.

Lemma owned_locked_cleared (m : FocusMode) :
  owned_locked uid (with_lock false None m) = false.
Proof. unfold owned_locked. simpl. apply andb_false_r. Qed.

Lemma owned_locked_cleared_any (until : option datetime) (m : FocusMode) :
  owned_locked uid (with_lock false until m) = false.
Proof. unfold owned_locked. simpl. apply andb_false_r. Qed.

(** *** [_get_locked_mode] *)

Lemma get_locked_mode_none (s : Session) :
  filter (owned_locked uid) (rows s) = [] ->
  _get_locked_mode uid now s = (Ok None, s).
Proof.
  intros Hnil. unfold _get_locked_mode, bind, select_modes.
  now rewrite Hnil.
Qed.

Lemma get_locked_mode_live (s : Session) (m : FocusMode) (until : datetime) :
  filter (owned_locked uid) (rows s) = [m] ->
  lock_until m = Some until -> now < until ->
  _get_locked_mode uid now s = (Ok (Some m), s).
Proof.
  intros Hone Huntil Hlt. unfold _get_locked_mode, bind, select_modes.
  rewrite Hone. simpl. rewrite Huntil.
  apply Z.ltb_lt in Hlt. now rewrite Hlt.
Qed.

Lemma get_locked_mode_expired (s : Session) (m : FocusMode) (until : datetime) :
  filter (owned_locked uid) (rows s) = [m] ->
  lock_until m = Some until -> until <= now ->
  _get_locked_mode uid now s
  = (Ok None,
     {| rows := update_first (owned_locked uid) (with_lock false None) (rows s);
        committed := update_first (owned_locked uid) (with_lock false None) (rows s);
        history := history s |}).
Proof.
  intros Hone Huntil Hle. unfold _get_locked_mode, bind, select_modes.
  rewrite Hone. simpl. rewrite Huntil.
  apply Z.ltb_ge in Hle. now rewrite Hle.
Qed.

Lemma get_locked_mode_unset (s : Session) (m : FocusMode) :
  filter (owned_locked uid) (rows s) = [m] ->
  lock_until m = None ->
  _get_locked_mode uid now s = (Ok None, s).
Proof.
  intros Hone Huntil. unfold _get_locked_mode, bind, select_modes.
  rewrite Hone. simpl. now rewrite Huntil.
Qed.

(** *** [activate_mode], one step at a time *)

Lemma activate_mode_unfold (mode_id : string) (s : Session) :
  activate_mode uid now mode_id s
  = match _get_locked_mode uid now s with
    | (Ok (Some locked), s1) =>
        (Raise (ValueError (CannotChangeMode (name locked) (lock_until locked))), s1)
    | (Ok None, s1) =>
        match find (fun m => String.eqb (id m) mode_id)
                   (map deactivate (filter (owned uid) (rows s1))) with
        | Some mode =>
            (Ok (with_active true mode),
             {| rows := activated uid mode_id (rows s1);
                committed := activated uid mode_id (rows s1);
                history := history s1 |})
        | None =>
            (Raise (ValueError FocusModeNotFound),
             {| rows := update_all (owned uid) deactivate (rows s1);
                committed := committed s1;
                history := history s1 |})
        end
    | (Raise e, s1) => (Raise e, s1)
    end.
Proof.
  unfold activate_mode at 1, bind at 1.
  destruct (_get_locked_mode uid now s) as [[[locked |] | e] s1];
    try reflexivity.
  unfold bind, select_modes, set_rows, commit, ret, raise. simpl.
  destruct (find _ _); reflexivity.
Qed.

(** *** The rows after the two loops *)

Lemma deactivated_not_active (l : list FocusMode) :
  filter (owned_active uid) (update_all (owned uid) deactivate l) = [].
Proof.
  induction l as [| a l IH]; simpl; [ reflexivity | ].
  unfold owned_active at 1.
  destruct (owned uid a) eqn:Ho; simpl.
  - unfold owned in *. simpl. rewrite Ho. simpl. exact IH.
  - rewrite Ho. simpl. exact IH.
Qed.

Lemma activated_exactly_target (mode_id : string) (l : list FocusMode)
    (mode : FocusMode) :
  find (fun m => String.eqb (id m) mode_id)
       (map deactivate (filter (owned uid) l)) = Some mode ->
  filter (owned_active uid) (activated uid mode_id l) = [with_active true mode]
  /\ id mode = mode_id /\ owned uid mode = true.
Proof.
  unfold activated.
  induction l as [| a l IH]; simpl; [ discriminate | ].
  destruct (owned uid a) eqn:Ho; simpl.
  - unfold owned_with_id at 1. simpl.
    destruct (String.eqb (id a) mode_id) eqn:Hid.
    + intros [= <-]. unfold owned in *. simpl. rewrite Ho. simpl.
      unfold owned_active at 1, owned. simpl. rewrite Ho. simpl.
      fold (owned uid). rewrite deactivated_not_active.
      repeat split. now apply String.eqb_eq.
    + intros Hfind. simpl.
      unfold owned_active at 1. simpl. rewrite andb_false_r.
      now apply IH.
  - intros Hfind. unfold owned_with_id at 1. rewrite Ho, andb_false_r.
    simpl. unfold owned_active at 1. rewrite Ho. simpl.
    now apply IH.
Qed.

Lemma deactivated_unlocked (l : list FocusMode) (m : FocusMode) :
  In m (update_all (owned uid) deactivate l) -> owned uid m = true ->
  is_locked m = false /\ lock_until m = None /\ is_active m = false.
Proof.
  unfold update_all. rewrite in_map_iff. intros (a & <- & _) Howned.
  destruct (owned uid a) eqn:Ho; [ now repeat split | congruence ].
Qed.

Lemma activated_unlocked (mode_id : string) (l : list FocusMode) (m : FocusMode) :
  In m (activated uid mode_id l) -> owned uid m = true ->
  is_locked m = false /\ lock_until m = None.
Proof.
  unfold activated. intros Hin Howned.
  apply update_first_In in Hin. destruct Hin as [Hin | (y & Hin & ->)].
  - now destruct (deactivated_unlocked _ _ Hin Howned) as (? & ? & _).
  - assert (Hy : owned uid y = true) by exact Howned.
    now destruct (deactivated_unlocked _ _ Hin Hy) as (? & ? & _).
Qed.

Lemma update_all_other_users (l : list FocusMode) :
  filter (fun m => negb (owned uid m)) (update_all (owned uid) deactivate l)
  = filter (fun m => negb (owned uid m)) l.
Proof.
  induction l as [| a l IH]; simpl; [ reflexivity | ].
  destruct (owned uid a) eqn:Ho.
  - change (owned uid (deactivate a)) with (owned uid a). rewrite Ho.
    exact IH.
  - rewrite Ho. simpl. now rewrite IH.
Qed.

Lemma update_first_other_users (mode_id : string) (l : list FocusMode) :
  filter (fun m => negb (owned uid m))
         (update_first (owned_with_id uid mode_id) (with_active true) l)
  = filter (fun m => negb (owned uid m)) l.
Proof.
  induction l as [| a l IH]; simpl; [ reflexivity | ].
  destruct (owned_with_id uid mode_id a) eqn:Hp; simpl.
  - unfold owned_with_id in Hp. apply andb_prop in Hp as [_ Ho].
    change (owned uid (with_active true a)) with (owned uid a).
    now rewrite Ho.
  - now rewrite IH.
Qed.

Lemma activated_other_users (mode_id : string) (l : list FocusMode) :
  filter (fun m => negb (owned uid m)) (activated uid mode_id l)
  = filter (fun m => negb (owned uid m)) l.
Proof.
  unfold activated.
  now rewrite update_first_other_users, update_all_other_users.
Qed.

Lemma find_target_none (mode_id : string) (l : list FocusMode) :
  (forall m, In m l -> owned_with_id uid mode_id m = false) ->
  find (fun m => String.eqb (id m) mode_id)
       (map deactivate (filter (owned uid) l)) = None.
Proof.
  induction l as [| a l IH]; simpl; intros Hnone; [ reflexivity | ].
  destruct (owned uid a) eqn:Ho; simpl.
  - pose proof (Hnone a (or_introl eq_refl)) as Ha.
    unfold owned_with_id in Ha. rewrite Ho, andb_true_r in Ha. rewrite Ha.
    apply IH. intros m Hin. apply Hnone. now right.
  - apply IH. intros m Hin. apply Hnone. now right.
Qed.

(** *** The daily time limit *)

Lemma or_zero_sql_sum (l : list Z) :
  or_zero (sql_sum l) = fold_right Z.add 0 l.
Proof.
  destruct l as [| z l]; [ reflexivity | ].
  unfold sql_sum, or_zero.
  destruct (Z.eqb_spec (fold_right Z.add 0 (z :: l)) 0) as [Heq | _];
    [ now rewrite Heq | reflexivity ].
Qed.

Lemma since_midnight_is_same_day (w : datetime) :
  w <= now -> (today_start now <=? w) = (w / day =? now / day).
Proof.
  intros Hle. unfold today_start, day, minute.
  destruct (Z.leb_spec (now - now mod (24 * 60 * (60 * 1000000))) w);
    destruct (Z.eqb_spec (w / (24 * 60 * (60 * 1000000)))
                         (now / (24 * 60 * (60 * 1000000))));
    try reflexivity; exfalso;
    Z.to_euclidean_division_equations; lia.
Qed.

Lemma watched_today_same_day (l : list WatchHistory) :
  (forall w, In w l -> watched_at w <= now) ->
  filter (watched_today uid now) l = filter (same_day uid now) l.
Proof.
  intros Hpast. apply filter_ext_in. intros w Hin.
  unfold watched_today, same_day.
  now rewrite since_midnight_is_same_day by now apply Hpast.
Qed.

End Engine.

(** *** Sessions the engine produces

    [consistent] implies [at_most_one_lock] and is kept by [_get_locked_mode],
    [activate_mode], [lock_session] and [unlock_session], whatever they
    return. *)

Lemma filter_length_le {A} (p q : A -> bool) (l : list A) :
  (forall x, In x l -> p x = true -> q x = true) ->
  (List.length (filter p l) <= List.length (filter q l))%nat.
Proof.
  induction l as [| a l IH]; simpl; intros Hpq; [ lia | ].
  assert (IH' : (List.length (filter p l) <= List.length (filter q l))%nat)
    by (apply IH; intros x Hin; apply Hpq; now right).
  destruct (p a) eqn:Hpa.
  - rewrite (Hpq a (or_introl eq_refl) Hpa). simpl. lia.
  - destruct (q a); simpl; lia.
Qed.

Lemma consistent_at_most_one_lock (uid : string) (s : Session) :
  consistent uid s -> at_most_one_lock uid s.
Proof.
  intros [Hactive Hlocked]. unfold at_most_one_lock.
  etransitivity; [ | exact Hactive ].
  apply filter_length_le. intros m Hin Hm.
  unfold owned_active. unfold owned_locked in Hm.
  apply andb_prop in Hm as [Ho Hl]. rewrite Ho. simpl.
  apply Hlocked; [ exact Hin | ]. unfold owned_locked. now rewrite Ho, Hl.
Qed.

Lemma update_first_In_hit (p : FocusMode -> bool) (f : FocusMode -> FocusMode)
    (l : list FocusMode) (x : FocusMode) :
  In x (update_first p f l) ->
  In x l \/ exists y, In y l /\ p y = true /\ x = f y.
Proof.
  induction l as [| a l IH]; simpl; [ tauto | ].
  destruct (p a) eqn:Hpa; simpl.
  - intros [<- | Hin]; [ right; exists a; auto | auto ].
  - intros [<- | Hin]; [ auto | ].
    destruct (IH Hin) as [Hl | (y & Hy & Hpy & ->)]; [ auto | ].
    right. exists y. auto.
Qed.

Lemma update_first_keeps_filter (p q : FocusMode -> bool)
    (f : FocusMode -> FocusMode) (l : list FocusMode) :
  (forall x, q (f x) = q x) ->
  List.length (filter q (update_first p f l)) = List.length (filter q l).
Proof.
  intros Hq. induction l as [| a l IH]; simpl; [ reflexivity | ].
  destruct (p a); simpl.
  - rewrite Hq. now destruct (q a).
  - destruct (q a); simpl; now rewrite IH.
Qed.

Section Consistency.
Variable uid : string.

(** Changing the lock of the rows a query selects keeps a session
    consistent, as long as a row that becomes locked is active. *)
Lemma relock_consistent (p : FocusMode -> bool) (locked : bool)
    (until : option datetime) (l : list FocusMode) :
  (List.length (filter (owned_active uid) l) <= 1)%nat ->
  (forall m, In m l -> owned_locked uid m = true -> is_active m = true) ->
  (locked = true -> forall m, In m l -> p m = true -> is_active m = true) ->
  (List.length (filter (owned_active uid) (update_first p (with_lock locked until) l))
   <= 1)%nat
  /\ forall m, In m (update_first p (with_lock locked until) l) ->
               owned_locked uid m = true -> is_active m = true.
Proof.
  intros Hactive Hlocked Hhit. split.
  - now rewrite update_first_keeps_filter.
  - intros m Hin Hm. apply update_first_In_hit in Hin.
    destruct Hin as [Hin | (y & Hy & Hpy & ->)]; [ now apply Hlocked | ].
    destruct locked.
    + now apply (Hhit eq_refl y).
    + rewrite owned_locked_cleared_any in Hm. discriminate.
Qed.



Lemma lock_session_consistent (now : datetime) (mode_id : string)
    (duration_minutes : Z) (s : Session) :
  consistent uid s ->
  consistent uid (session_of (lock_session uid now mode_id duration_minutes s)).
Proof.
  intros [Hactive Hlocked].
  unfold lock_session, bind, select_modes. cbn [fst snd].
  destruct (filter (owned_with_id uid mode_id) (rows s)) as [| m [| m' k]] eqn:Hsel;
    cbn; try (split; assumption).
  destruct (is_active m) eqn:Hm; cbn; try (split; assumption).
  apply relock_consistent; auto.
  intros _ y Hy Hpy.
  assert (Hin : In y (filter (owned_with_id uid mode_id) (rows s)))
    by (apply filter_In; now split).
  rewrite Hsel in Hin. destruct Hin as [<- | []]. exact Hm.
Qed.


End Consistency.

(** C5. In a session where at most one mode of the user is flagged as
    locked: (1) if a mode of the user is locked with [lock_until] strictly
    in the future, [activate_mode] raises the "cannot change mode" error
    naming that mode and its unlock time, whatever the target (another mode
    included), and changes nothing; (2) if the lock has expired
    ([lock_until <= now]) the call does not raise that error, and reading
    the lock state clears the lock ([is_locked] false, [lock_until] unset)
    and commits; (3) if no lock is live and no mode of the user has the
    requested id, the call raises "focus mode not found". *)
Theorem activate_mode_failures (uid : string) (now : datetime)
    (mode_id : string) (s : Session) :
  at_most_one_lock uid s ->
  (forall m until,
      In m (rows s) -> owned uid m = true -> is_locked m = true ->
      lock_until m = Some until -> now < until ->
      activate_mode uid now mode_id s
      = (Raise (ValueError (CannotChangeMode (name m) (Some until))), s))
  /\ (forall m until,
      In m (rows s) -> owned uid m = true -> is_locked m = true ->
      lock_until m = Some until -> until <= now ->
      (forall n u, result_of (activate_mode uid now mode_id s)
                   <> Raise (ValueError (CannotChangeMode n u)))
      /\ result_of (_get_locked_mode uid now s) = Ok None
      /\ In (with_lock false None m)
            (rows (session_of (_get_locked_mode uid now s)))
      /\ (forall m', In m' (rows (session_of (_get_locked_mode uid now s))) ->
                     owned uid m' = true -> is_locked m' = false)
      /\ committed (session_of (_get_locked_mode uid now s))
         = rows (session_of (_get_locked_mode uid now s)))
  /\ ((forall m, In m (rows s) -> owned_with_id uid mode_id m = false) ->
      (forall m, In m (rows s) -> owned uid m = true -> is_locked m = true ->
                 live now m = false) ->
      result_of (activate_mode uid now mode_id s)
      = Raise (ValueError FocusModeNotFound)).
Proof.
  intros Hone. unfold at_most_one_lock in Hone.
  assert (Hflag : forall m, owned uid m = true -> is_locked m = true ->
                            owned_locked uid m = true).
  { intros m Ho Hl. unfold owned_locked. now rewrite Ho, Hl. }
  split; [ | split ].
  - intros m until Hin Ho Hl Huntil Hlt.
    pose proof (filter_at_most_one _ _ m Hone Hin (Hflag m Ho Hl)) as Hfilter.
    rewrite activate_mode_unfold.
    rewrite (get_locked_mode_live uid now s m until Hfilter Huntil Hlt).
    now rewrite Huntil.
  - intros m until Hin Ho Hl Huntil Hle.
    pose proof (filter_at_most_one _ _ m Hone Hin (Hflag m Ho Hl)) as Hfilter.
    rewrite activate_mode_unfold.
    rewrite (get_locked_mode_expired uid now s m until Hfilter Huntil Hle).
    unfold result_of, session_of. cbn [fst snd rows committed].
    repeat split.
    + intros n u. destruct (find _ _); simpl; discriminate.
    + apply update_first_hit; auto.
    + intros m' Hin' Ho'.
      pose proof (update_first_clears (owned_locked uid) (with_lock false None)
                    (rows s) (owned_locked_cleared uid) Hone) as Hnil.
      rewrite filter_nil_forall in Hnil. specialize (Hnil m' Hin').
      unfold owned_locked in Hnil. now rewrite Ho' in Hnil.
  - intros Hnone Hdead.
    rewrite activate_mode_unfold.
    assert (Hnf : forall s1,
               (forall m, In m (rows s1) -> owned_with_id uid mode_id m = false) ->
               result_of
                 match find (fun m => String.eqb (id m) mode_id)
                            (map deactivate (filter (owned uid) (rows s1))) with
                 | Some mode =>
                     (Ok (with_active true mode),
                      {| rows := activated uid mode_id (rows s1);
                         committed := activated uid mode_id (rows s1);
                         history := history s1 |})
                 | None =>
                     (Raise (ValueError FocusModeNotFound),
                      {| rows := update_all (owned uid) deactivate (rows s1);
                         committed := committed s1;
                         history := history s1 |})
                 end = Raise (ValueError FocusModeNotFound)).
    { intros s1 Hs1. now rewrite (find_target_none uid mode_id _ Hs1). }
    destruct (filter (owned_locked uid) (rows s)) as [| m [| m' k]] eqn:Hfilter.
    + rewrite (get_locked_mode_none uid now s Hfilter). now apply Hnf.
    + assert (Hm : In m (rows s) /\ owned_locked uid m = true).
      { apply filter_In. rewrite Hfilter. now left. }
      destruct Hm as [Hin Hm]. unfold owned_locked in Hm.
      apply andb_prop in Hm as [Ho Hl].
      pose proof (Hdead m Hin Ho Hl) as Hlive. unfold live in Hlive.
      destruct (lock_until m) as [until |] eqn:Huntil.
      * apply Z.ltb_ge in Hlive.
        rewrite (get_locked_mode_expired uid now s m until Hfilter Huntil Hlive).
        apply Hnf. cbn [rows]. intros x Hx.
        apply update_first_In in Hx. destruct Hx as [Hx | (y & Hy & ->)].
        -- now apply Hnone.
        -- now apply (Hnone y).
      * rewrite (get_locked_mode_unset uid now s m Hfilter Huntil).
        now apply Hnf.
    + simpl in Hone. lia.
Qed.

(** Scenario D of the specification, then the same session once the lock
    has expired, and a request for a mode the user does not have. *)
Lemma activate_mode_failures_witness :
  (at_most_one_lock "user" SessionScenarios.locked_session
   /\ activate_mode "user" SessionScenarios.now "relax"
        SessionScenarios.locked_session
      = (Raise (ValueError
                  (CannotChangeMode "Study Mode"
                     (Some (SessionScenarios.now + 30 * minute)))),
         SessionScenarios.locked_session))
  /\ (result_of (_get_locked_mode "user" SessionScenarios.later
                   SessionScenarios.locked_session) = Ok None
      /\ In (with_lock false None SessionScenarios.locked_study)
            (rows (session_of (_get_locked_mode "user" SessionScenarios.later
                                 SessionScenarios.locked_session))))
  /\ (at_most_one_lock "user" SessionScenarios.free_session
      /\ result_of (activate_mode "user" SessionScenarios.now "absent"
                      SessionScenarios.free_session)
         = Raise (ValueError FocusModeNotFound)).
Proof.
  assert (Hlocked : at_most_one_lock "user" SessionScenarios.locked_session)
    by (unfold at_most_one_lock; simpl; lia).
  assert (Hfree : at_most_one_lock "user" SessionScenarios.free_session)
    by (unfold at_most_one_lock; simpl; lia).
  split; [ split; [ exact Hlocked | ] | split; [ | split; [ exact Hfree | ] ] ].
  - apply (proj1 (activate_mode_failures "user" SessionScenarios.now "relax"
                    SessionScenarios.locked_session Hlocked)
             SessionScenarios.locked_study
             (SessionScenarios.now + 30 * minute));
      [ now left | reflexivity | reflexivity | reflexivity
      | unfold minute; lia ].
  - destruct (proj1 (proj2 (activate_mode_failures "user"
                              SessionScenarios.later "relax"
                              SessionScenarios.locked_session Hlocked))
                SessionScenarios.locked_study
                (SessionScenarios.now + 30 * minute))
      as (_ & Hnone & Hcleared & _);
      [ now left | reflexivity | reflexivity | reflexivity
      | unfold SessionScenarios.later, minute; lia | ].
    split; [ exact Hnone | exact Hcleared ].
  - apply (proj2 (proj2 (activate_mode_failures "user" SessionScenarios.now
                           "absent" SessionScenarios.free_session Hfree))).
    + intros m [<- | [<- | []]]; reflexivity.
    + intros m [<- | [<- | []]]; intros _ Hl; discriminate Hl.
Defined.

(** C6. For a mode with a configured (non-zero) daily limit,
    [check_time_limit] adds up the watch durations of the user's history
    rows dated from today's UTC midnight on -- the rows of the current
    calendar day, no row being dated after [now] -- takes the whole minutes
    of that sum as [used_minutes], and reports [exceeded] exactly when
    [used_minutes >= limit] and [remaining_minutes = max(0, limit -
    used_minutes)].  With a limit of 60 and 4200 seconds it reports
    exceeded and 0 minutes remaining.  A mode without a limit reports
    [has_limit] false and no numeric bounds. *)
Theorem check_time_limit_accounting (uid : string) (now : datetime)
    (mode : FocusMode) (s : Session) :
  (forall limit,
      daily_time_limit_minutes mode = Some limit -> limit <> 0 ->
      let used := seconds_since_midnight_rows uid now s / 60 in
      check_time_limit uid now mode s
      = (Ok {| has_limit := true;
               exceeded := limit <=? used;
               used_minutes := used;
               limit_minutes := Some limit;
               remaining_minutes := Some (Z.max 0 (limit - used)) |}, s)
      /\ ((limit <=? used) = true <-> used >= limit)
      /\ ((forall w, In w (history s) -> watched_at w <= now) ->
          seconds_since_midnight_rows uid now s
          = seconds_watched_on_day uid now s))
  /\ (daily_time_limit_minutes mode = Some 60 ->
      seconds_since_midnight_rows uid now s = 4200 ->
      exists r,
        check_time_limit uid now mode s = (Ok r, s)
        /\ has_limit r = true /\ exceeded r = true
        /\ used_minutes r = 70 /\ remaining_minutes r = Some 0)
  /\ (daily_time_limit_minutes mode = None ->
      check_time_limit uid now mode s
      = (Ok {| has_limit := false; exceeded := false; used_minutes := 0;
               limit_minutes := None; remaining_minutes := None |}, s)).
Proof.
  assert (Hrun : forall limit,
             daily_time_limit_minutes mode = Some limit -> limit <> 0 ->
             check_time_limit uid now mode s
             = (Ok {| has_limit := true;
                      exceeded := limit <=? seconds_since_midnight_rows uid now s / 60;
                      used_minutes := seconds_since_midnight_rows uid now s / 60;
                      limit_minutes := Some limit;
                      remaining_minutes :=
                        Some (Z.max 0 (limit - seconds_since_midnight_rows uid now s / 60))
                   |}, s)).
  { intros limit Hlimit Hnz. unfold check_time_limit, falsy.
    rewrite Hlimit. apply Z.eqb_neq in Hnz. rewrite Hnz.
    rewrite or_zero_sql_sum. reflexivity. }
  split; [ | split ].
  - intros limit Hlimit Hnz used. split; [ now apply Hrun | ]. split.
    + rewrite Z.leb_le. lia.
    + intros Hpast. unfold seconds_since_midnight_rows, seconds_watched_on_day.
      now rewrite watched_today_same_day.
  - intros Hlimit Hsum. eexists. split.
    + apply Hrun; [ exact Hlimit | discriminate ].
    + rewrite Hsum. repeat split.
  - intros Hnone. unfold check_time_limit. now rewrite Hnone.
Qed.

(** Scenario E of the specification, run on a concrete history, all of
    it watched on the day of [now]. *)
Lemma check_time_limit_accounting_witness :
  check_time_limit "user" SessionScenarios.now SessionScenarios.relax
    SessionScenarios.busy_session
  = (Ok {| has_limit := true; exceeded := true; used_minutes := 70;
           limit_minutes := Some 60; remaining_minutes := Some 0 |},
     SessionScenarios.busy_session)
  /\ seconds_watched_on_day "user" SessionScenarios.now
       SessionScenarios.busy_session = 4200.
Proof.
  pose proof (proj1 (check_time_limit_accounting "user" SessionScenarios.now
                       SessionScenarios.relax SessionScenarios.busy_session)
                60 eq_refl) as Hlimit.
  cbv zeta in Hlimit.
  destruct Hlimit as (Hrun & _ & Hday); [ discriminate | ].
  split; [ exact Hrun | ].
  rewrite <- Hday; [ reflexivity | ].
  intros w [<- | [<- | []]]; unfold SessionScenarios.now, minute; simpl; lia.
Defined.

(** C9. A daily limit of exactly zero minutes is treated as no limit:
    [check_time_limit] reports [has_limit] false, [exceeded] false,
    [used_minutes] 0 and no numeric bounds, whatever the history holds. *)
Theorem zero_limit_means_no_limit (uid : string) (now : datetime)
    (mode : FocusMode) (s : Session) :
  daily_time_limit_minutes mode = Some 0 ->
  check_time_limit uid now mode s
  = (Ok {| has_limit := false; exceeded := false; used_minutes := 0;
           limit_minutes := None; remaining_minutes := None |}, s).
Proof.
  intros Hzero. unfold check_time_limit. now rewrite Hzero.
Qed.

Lemma zero_limit_means_no_limit_witness :
  seconds_since_midnight_rows "user" SessionScenarios.now
    SessionScenarios.busy_session = 4200
  /\ check_time_limit "user" SessionScenarios.now
       SessionScenarios.zero_limit_mode SessionScenarios.busy_session
     = (Ok {| has_limit := false; exceeded := false; used_minutes := 0;
              limit_minutes := None; remaining_minutes := None |},
        SessionScenarios.busy_session).
Proof.
  split; [ reflexivity | ].
  apply (zero_limit_means_no_limit "user" SessionScenarios.now
           SessionScenarios.zero_limit_mode SessionScenarios.busy_session).
  reflexivity.
Defined.

(** C10. After a successful [activate_mode], every mode of the user is
    unlocked ([is_locked] false, [lock_until] unset), the returned target
    included; the target, whose id is the one asked for, is the one and
    only mode of the user with [is_active] set; and all of this is
    committed.  Modes of other users are untouched by the two loops. *)
Theorem activate_mode_success (uid : string) (now : datetime) (mode_id : string)
    (s s' : Session) (target : FocusMode) :
  activate_mode uid now mode_id s = (Ok target, s') ->
  (forall m, In m (rows s') -> owned uid m = true ->
             is_locked m = false /\ lock_until m = None)
  /\ filter (owned_active uid) (rows s') = [target]
  /\ In target (rows s')
  /\ id target = mode_id /\ owned uid target = true
  /\ is_active target = true
  /\ committed s' = rows s'.
Proof.
  rewrite activate_mode_unfold.
  destruct (_get_locked_mode uid now s) as [[[locked |] | e] s1];
    try discriminate.
  destruct (find _ _) as [mode |] eqn:Hfind; try discriminate.
  intros [= <- <-]. cbn [rows committed].
  destruct (activated_exactly_target uid mode_id _ _ Hfind) as (Hone & Hid & Ho).
  assert (Hin : In (with_active true mode) (activated uid mode_id (rows s1))).
  { assert (Hin : In (with_active true mode) [with_active true mode])
      by now left.
    rewrite <- Hone in Hin. now apply filter_In in Hin. }
  repeat split; try assumption.
  - now apply (activated_unlocked uid mode_id (rows s1)).
  - now apply (activated_unlocked uid mode_id (rows s1)).
Qed.

Lemma activate_mode_success_witness :
  (forall m, In m [ with_active false (Presets.study "study" "user");
                    with_active true SessionScenarios.relax ] ->
             owned "user" m = true ->
             is_locked m = false /\ lock_until m = None)
  /\ filter (owned_active "user")
       [ with_active false (Presets.study "study" "user");
         with_active true SessionScenarios.relax ]
     = [with_active true SessionScenarios.relax]
  /\ In (with_active true SessionScenarios.relax)
       [ with_active false (Presets.study "study" "user");
         with_active true SessionScenarios.relax ]
  /\ id (with_active true SessionScenarios.relax) = "relax"
  /\ owned "user" (with_active true SessionScenarios.relax) = true
  /\ is_active (with_active true SessionScenarios.relax) = true
  /\ [ with_active false (Presets.study "study" "user");
       with_active true SessionScenarios.relax ]
     = [ with_active false (Presets.study "study" "user");
         with_active true SessionScenarios.relax ].
Proof.
  apply (activate_mode_success "user" SessionScenarios.now "relax"
           SessionScenarios.free_session
           {| rows := [ with_active false (Presets.study "study" "user");
                        with_active true SessionScenarios.relax ];
              committed := [ with_active false (Presets.study "study" "user");
                             with_active true SessionScenarios.relax ];
              history := [] |}
           (with_active true SessionScenarios.relax)).
  reflexivity.
Defined.

End FocusFacts.

(* ================================================================= *)
(** ** Comparisons of floats that are not NaN *)

Module FloatOrderFacts.
Import FloatOrder.

Lemma compare_cont_Eq (m1 m2 : positive) :
  Pos.compare_cont Eq m1 m2 = (m1 ?= m2)%positive.
Proof. reflexivity. Qed.

Lemma SFcompare_rank (a b : spec_float) :
  not_nan a -> not_nan b ->
  exists c, SFcompare a b = Some c
    /\ (c = Lt <-> lex_lt (rank a) (rank b))
    /\ (c = Eq <-> rank a = rank b)
    /\ (c = Gt <-> lex_lt (rank b) (rank a)).
Proof.
  unfold not_nan.
  destruct a as [[] | [] | | [] ma ea], b as [[] | [] | | [] mb eb];
    intros Ha Hb; try congruence; cbn [SFcompare rank lex_lt];
    try (eexists; split; [ reflexivity | ];
         repeat split; intros; try discriminate; try lia; fail).
  - rewrite compare_cont_Eq. eexists; split; [ reflexivity | ].
    destruct (Z.compare_spec ea eb); destruct (Pos.compare_spec ma mb);
      cbn [CompOpp]; repeat split; intros Hx;
      try discriminate; try reflexivity; try lia;
      try (injection Hx; lia); try (subst; reflexivity).
  - rewrite compare_cont_Eq. eexists; split; [ reflexivity | ].
    destruct (Z.compare_spec ea eb); destruct (Pos.compare_spec ma mb);
      repeat split; intros Hx;
      try discriminate; try reflexivity; try lia;
      try (injection Hx; lia); try (subst; reflexivity).
Qed.

Lemma is_nan_false (x : float) :
  PrimFloat.is_nan x = false -> not_nan (Prim2SF x).
Proof.
  unfold PrimFloat.is_nan, not_nan. rewrite eqb_spec. intros Hx Hnan.
  rewrite Hnan in Hx. discriminate.
Qed.

Lemma ltb_true_not_nan (a b : float) :
  PrimFloat.ltb a b = true ->
  PrimFloat.is_nan a = false /\ PrimFloat.is_nan b = false.
Proof.
  unfold PrimFloat.is_nan. rewrite ltb_spec, !eqb_spec. unfold SFltb, SFeqb.
  destruct (Prim2SF a) as [[] | [] | | [] ma ea], (Prim2SF b) as [[] | [] | | [] mb eb];
    cbn [SFcompare]; try discriminate; intros _;
    rewrite ?compare_cont_Eq, ?Z.compare_refl, ?Pos.compare_refl; split; reflexivity.
Qed.

Section Comparable.
Variables a b : float.
Hypothesis Ha : PrimFloat.is_nan a = false.
Hypothesis Hb : PrimFloat.is_nan b = false.

Lemma ltb_rank : PrimFloat.ltb a b = true <-> lex_lt (frank a) (frank b).
Proof.
  rewrite ltb_spec. unfold SFltb, frank.
  destruct (SFcompare_rank _ _ (is_nan_false a Ha) (is_nan_false b Hb))
    as (c & -> & Hlt & Heq & Hgt).
  rewrite <- Hlt. destruct c; split; congruence.
Qed.

Lemma eqb_rank : PrimFloat.eqb a b = true <-> frank a = frank b.
Proof.
  rewrite eqb_spec. unfold SFeqb, frank.
  destruct (SFcompare_rank _ _ (is_nan_false a Ha) (is_nan_false b Hb))
    as (c & -> & Hlt & Heq & Hgt).
  rewrite <- Heq. destruct c; split; congruence.
Qed.

Lemma leb_rank :
  PrimFloat.leb a b = true <-> lex_lt (frank a) (frank b) \/ frank a = frank b.
Proof.
  rewrite leb_spec. unfold SFleb, frank.
  destruct (SFcompare_rank _ _ (is_nan_false a Ha) (is_nan_false b Hb))
    as (c & -> & Hlt & Heq & Hgt).
  rewrite <- Hlt, <- Heq. destruct c; split; try tauto; try congruence;
    intros [? | ?]; congruence.
Qed.
End Comparable.

Ltac lex :=
  unfold lex_lt in *;
  repeat match goal with
         | x : (Z * Z * Z)%type |- _ => destruct x as [[? ?] ?]
         end;
  repeat match goal with
         | H : (_, _, _) = (_, _, _) |- _ => injection H as ? ? ?
         end;
  try lia.

Lemma lex_lt_total (x y : Z * Z * Z) : lex_lt x y \/ x = y \/ lex_lt y x.
Proof.
  destruct x as [[x1 x2] x3], y as [[y1 y2] y3]. unfold lex_lt.
  destruct (Z.lt_trichotomy x1 y1) as [? | [-> | ?]]; [ auto | | auto ].
  destruct (Z.lt_trichotomy x2 y2) as [? | [-> | ?]]; [ auto | | auto 6 ].
  destruct (Z.lt_trichotomy x3 y3) as [? | [-> | ?]]; [ auto 6 | auto | auto 7 ].
Qed.

(** [<] is asymmetric. *)
Lemma ltb_asym (a b : float) :
  PrimFloat.ltb a b = true -> PrimFloat.ltb b a = false.
Proof.
  intros Hlt. destruct (ltb_true_not_nan a b Hlt) as [Ha Hb].
  apply not_true_is_false. intros Hgt.
  apply (ltb_rank a b Ha Hb) in Hlt. apply (ltb_rank b a Hb Ha) in Hgt.
  generalize dependent (frank a). generalize dependent (frank b).
  intros. lex.
Qed.

(** If [a < c] then any comparable [b] is above [a] or below [c]. *)
Lemma ltb_between (a b c : float) :
  PrimFloat.is_nan b = false ->
  PrimFloat.ltb a c = true ->
  PrimFloat.ltb a b = true \/ PrimFloat.ltb b c = true.
Proof.
  intros Hb Hlt. destruct (ltb_true_not_nan a c Hlt) as [Ha Hc].
  rewrite (ltb_rank a b Ha Hb), (ltb_rank b c Hb Hc).
  apply (ltb_rank a c Ha Hc) in Hlt.
  generalize dependent (frank a). generalize dependent (frank b).
  generalize dependent (frank c). intros. lex.
Qed.

(** Among comparable floats, "not smaller" is "greater or equal". *)
Lemma not_ltb_leb (a b : float) :
  PrimFloat.is_nan a = false -> PrimFloat.is_nan b = false ->
  PrimFloat.ltb a b = false -> PrimFloat.leb b a = true.
Proof.
  intros Ha Hb Hnlt. apply (leb_rank b a Hb Ha).
  assert (Hn : ~ lex_lt (frank a) (frank b)).
  { intros Hlt. apply (ltb_rank a b Ha Hb) in Hlt. congruence. }
  destruct (lex_lt_total (frank a) (frank b)) as [? | [? | ?]];
    [ contradiction | auto | auto ].
Qed.

(** Equal scores are not ordered. *)
Lemma eqb_not_ltb (a b k : float) :
  PrimFloat.is_nan k = false ->
  PrimFloat.eqb a k = true -> PrimFloat.eqb b k = true ->
  PrimFloat.ltb a b = false.
Proof.
  intros Hk Hak Hbk. apply not_true_is_false. intros Hlt.
  destruct (ltb_true_not_nan a b Hlt) as [Ha Hb].
  apply (ltb_rank a b Ha Hb) in Hlt.
  apply (eqb_rank a k Ha Hk) in Hak. apply (eqb_rank b k Hb Hk) in Hbk.
  generalize dependent (frank a). generalize dependent (frank b).
  generalize dependent (frank k). intros. lex.
Qed.

End FloatOrderFacts.

(* ================================================================= *)
(** ** The personalization re-ranker *)

Module RankingFacts.
Import Personalization FloatOrder FloatOrderFacts.

Section StableSort.
Context {A : Type}.
Variable key : A -> float.

Lemma insert_permutation (x : A) (l : list A) :
  Permutation (insert key x l) (x :: l).
Proof.
  induction l as [| y l IH]; simpl; [ reflexivity | ].
  destruct (PrimFloat.ltb (key y) (key x)); [ | reflexivity ].
  rewrite IH. apply perm_swap.
Qed.

Lemma sort_stable_permutation (l : list A) :
  Permutation (sort_stable key l) l.
Proof.
  induction l as [| x l IH]; simpl; [ reflexivity | ].
  rewrite insert_permutation. now constructor.
Qed.

Lemma sorted_reverse_permutation (l : list A) :
  Permutation (sorted_reverse key l) l.
Proof.
  unfold sorted_reverse.
  rewrite <- Permutation_rev, sort_stable_permutation.
  symmetry. apply Permutation_rev.
Qed.

(** Inserting into an ascending list of comparable keys keeps it
    ascending. *)
Lemma insert_ascending (x : A) (l : list A) :
  Forall (comparable key) l ->
  StronglySorted (ascending key) l ->
  StronglySorted (ascending key) (insert key x l).
Proof.
  induction l as [| y l IH]; simpl; intros Hcmp Hsorted.
  - repeat constructor.
  - apply StronglySorted_inv in Hsorted as [Hsorted Hy].
    apply Forall_cons_iff in Hcmp as [Hcy Hcmp].
    destruct (PrimFloat.ltb (key y) (key x)) eqn:Hyx.
    + constructor; [ now apply IH | ].
      rewrite (insert_permutation x l). constructor; [ | exact Hy ].
      now apply ltb_asym.
    + constructor; [ now constructor | ].
      constructor; [ exact Hyx | ].
      rewrite Forall_forall in *. intros z Hz.
      specialize (Hy z Hz). unfold ascending in *.
      apply not_true_is_false. intros Hzx.
      destruct (ltb_between _ (key y) _ Hcy Hzx); congruence.
Qed.

Lemma sort_stable_ascending (l : list A) :
  Forall (comparable key) l -> StronglySorted (ascending key) (sort_stable key l).
Proof.
  induction l as [| x l IH]; simpl; intros Hcmp; [ constructor | ].
  apply Forall_cons_iff in Hcmp as [_ Hcmp].
  apply insert_ascending; [ | now apply IH ].
  now rewrite sort_stable_permutation.
Qed.

Lemma StronglySorted_snoc (R : A -> A -> Prop) (l : list A) (x : A) :
  StronglySorted R l -> Forall (fun y => R y x) l ->
  StronglySorted R (l ++ [x])%list.
Proof.
  induction l as [| y l IH]; simpl; intros Hsorted Hall.
  - repeat constructor.
  - apply StronglySorted_inv in Hsorted as [Hsorted Hy].
    apply Forall_cons_iff in Hall as [Hyx Hall].
    constructor; [ now apply IH | ].
    apply Forall_app. split; [ exact Hy | now constructor ].
Qed.

Lemma StronglySorted_reverse (R : A -> A -> Prop) (l : list A) :
  StronglySorted R l -> StronglySorted (fun a b => R b a) (rev l).
Proof.
  induction 1 as [| x l Hsorted IH Hx]; simpl; [ constructor | ].
  apply StronglySorted_snoc; [ exact IH | ].
  now apply Forall_rev.
Qed.

(** Among comparable keys, the reverse of "ascending" is "descending". *)
Lemma ascending_flip_descending (l : list A) :
  Forall (comparable key) l ->
  StronglySorted (fun a b => ascending key b a) l ->
  StronglySorted (descending key) l.
Proof.
  intros Hall Hsorted. revert Hall.
  induction Hsorted as [| x k Hsorted IH Hx]; intros Hall; [ constructor | ].
  apply Forall_cons_iff in Hall as [Hcx Hall].
  constructor; [ now apply IH | ].
  rewrite Forall_forall in *. intros y Hy.
  apply not_ltb_leb; [ exact Hcx | now apply Hall | now apply Hx ].
Qed.

Lemma sorted_reverse_descending (l : list A) :
  Forall (comparable key) l ->
  StronglySorted (descending key) (sorted_reverse key l).
Proof.
  intros Hcmp. apply ascending_flip_descending.
  - now rewrite sorted_reverse_permutation.
  - unfold sorted_reverse. apply StronglySorted_reverse.
    apply sort_stable_ascending. now apply Forall_rev.
Qed.

(** Stability: the items whose key equals [k] keep their order. *)
Variable k : float.
Hypothesis Hk : PrimFloat.is_nan k = false.

Lemma insert_ties (x : A) (l : list A) :
  filter (ties key k) (insert key x l) = filter (ties key k) (x :: l).
Proof.
  induction l as [| y l IH]; [ reflexivity | ].
  cbn [insert]. destruct (PrimFloat.ltb (key y) (key x)) eqn:Hyx;
    [ | reflexivity ].
  cbn [filter]. rewrite IH. cbn [filter].
  destruct (ties key k y) eqn:Hy; destruct (ties key k x) eqn:Hx;
    try reflexivity.
  unfold ties in *. pose proof (eqb_not_ltb _ _ _ Hk Hy Hx). congruence.
Qed.

Lemma sort_stable_ties (l : list A) :
  filter (ties key k) (sort_stable key l) = filter (ties key k) l.
Proof.
  induction l as [| x l IH]; [ reflexivity | ].
  cbn [sort_stable fold_right]. fold (sort_stable key l).
  rewrite insert_ties. cbn [filter]. now rewrite IH.
Qed.

Lemma sorted_reverse_ties (l : list A) :
  filter (ties key k) (sorted_reverse key l) = filter (ties key k) l.
Proof.
  unfold sorted_reverse.
  now rewrite filter_rev, sort_stable_ties, filter_rev, rev_involutive.
Qed.
End StableSort.

Lemma score_of_spec (preferences : Preferences) (v : Item) :
  score_of preferences v
  = spec_score
      (mem (get (i_category v) EmptyString) (preferred_categories preferences))
      (mem (get (i_category v) EmptyString) (avoided_categories preferences))
      (get (i_depth_score v) 0.5%float)
      (get (i_clickbait_score v) 0%float).
Proof.
  unfold score_of, spec_score.
  destruct (mem _ (preferred_categories preferences));
    destruct (mem _ (avoided_categories preferences)); reflexivity.
Qed.

(** Order and stability of the ranking when every score can be compared. *)
Lemma ranking_sorted_and_stable (preferences : Preferences) (videos : list Item) :
  (forall v, In v videos ->
     PrimFloat.is_nan (score_of preferences v) = false) ->
  StronglySorted (descending personalization_score)
    (get_personalized_ranking preferences videos)
  /\ forall k, PrimFloat.is_nan k = false ->
       filter (ties personalization_score k)
              (get_personalized_ranking preferences videos)
       = filter (ties personalization_score k)
                (map (annotate preferences) videos).
Proof.
  intros Hnan. split.
  - apply sorted_reverse_descending.
    apply Forall_forall. intros r Hin.
    apply in_map_iff in Hin as (v & <- & Hv). now apply Hnan.
  - intros k Hk. now apply sorted_reverse_ties.
Qed.

(** C7. The re-ranker returns a permutation of its input, every item
    annotated with score = 1.0, + 0.5 if its category is preferred, - 0.5
    if it is avoided, + depth_score x 0.3, - clickbait_score x 0.4; no item
    is removed.  When no score is a NaN (as for scores built from
    classifications, whose fields lie in [0, 1]) the output is in
    descending order of score, and the items of equal score stand in the
    order they had in the input. *)
Theorem personalized_ranking_contract (preferences : Preferences)
    (videos : list Item) :
  let ranked := get_personalized_ranking preferences videos in
  Permutation (map video ranked) videos
  /\ Permutation ranked (map (annotate preferences) videos)
  /\ (forall r, In r ranked ->
        personalization_score r
        = spec_score
            (mem (get (i_category (video r)) EmptyString)
                 (preferred_categories preferences))
            (mem (get (i_category (video r)) EmptyString)
                 (avoided_categories preferences))
            (get (i_depth_score (video r)) 0.5%float)
            (get (i_clickbait_score (video r)) 0%float))
  /\ ((forall v, In v videos ->
          PrimFloat.is_nan (score_of preferences v) = false) ->
      StronglySorted (descending personalization_score) ranked
      /\ forall k, PrimFloat.is_nan k = false ->
           filter (ties personalization_score k) ranked
           = filter (ties personalization_score k)
                    (map (annotate preferences) videos)).
Proof.
  intros ranked.
  assert (Hperm : Permutation ranked (map (annotate preferences) videos))
    by apply sorted_reverse_permutation.
  split; [ | split; [ exact Hperm | split ] ].
  - rewrite Hperm, map_map. simpl. now rewrite map_id.
  - intros r Hin. apply (Permutation_in _ Hperm) in Hin.
    apply in_map_iff in Hin as (v & <- & _). simpl. apply score_of_spec.
  - apply ranking_sorted_and_stable.
Qed.

Lemma personalized_ranking_contract_witness :
  get_personalized_ranking RankingScenarios.preferences
    RankingScenarios.candidates
  = map (annotate RankingScenarios.preferences)
      [ RankingScenarios.lecture; RankingScenarios.vlog_one;
        RankingScenarios.vlog_two; RankingScenarios.prank ]
  /\ StronglySorted (descending personalization_score)
       (get_personalized_ranking RankingScenarios.preferences
          RankingScenarios.candidates).
Proof.
  split; [ reflexivity | ].
  pose proof (personalized_ranking_contract RankingScenarios.preferences
                RankingScenarios.candidates) as Hcontract.
  cbv zeta in Hcontract.
  destruct Hcontract as (_ & _ & _ & Hsorted).
  apply Hsorted.
  intros v [<- | [<- | [<- | [<- | []]]]]; reflexivity.
Defined.

(** The scores of heuristically classified videos are never NaN. *)
Lemma classified_score_not_nan `{StrOps} (preferences : Preferences)
    (title : string) (v : Video) (c : VideoClassification) :
  Classifier._fallback_classification v = Some c ->
  PrimFloat.is_nan (score_of preferences (item_of title c)) = false.
Proof.
  intros Hc.
  apply ClassifierFacts.fallback_classification_fields in Hc
    as (st & click & Hst & Hclick & ->).
  rewrite score_of_spec.
  cbn [item_of i_category i_depth_score i_clickbait_score
       category depth_score clickbait_score get].
  generalize (mem (Classifier.c_category st) (preferred_categories preferences))
             (mem (Classifier.c_category st) (avoided_categories preferences)).
  intros b1 b2.
  assert (Hdepth : In (Classifier.c_depth st)
                      (map Classifier.c_depth Classifier.adjusted_outcomes))
    by now apply in_map.
  revert Hdepth Hclick. generalize (Classifier.c_depth st). clear.
  intros depth Hdepth Hclick.
  vm_compute in Hdepth, Hclick.
  repeat (destruct Hdepth as [<- | Hdepth]; [ | ]); try contradiction;
    repeat (destruct Hclick as [<- | Hclick]; [ | ]); try contradiction;
    destruct b1, b2; vm_compute; reflexivity.
Qed.

(** Hence lists of heuristically classified videos are always returned in
    descending order of score, ties in input order. *)
Corollary ranking_of_classified_videos `{StrOps} (preferences : Preferences)
    (videos : list Item) :
  (forall it, In it videos ->
     exists title v c,
       Classifier._fallback_classification v = Some c /\ it = item_of title c) ->
  let ranked := get_personalized_ranking preferences videos in
  StronglySorted (descending personalization_score) ranked
  /\ forall k, PrimFloat.is_nan k = false ->
       filter (ties personalization_score k) ranked
       = filter (ties personalization_score k)
                (map (annotate preferences) videos).
Proof.
  intros Hclassified.
  apply (ranking_sorted_and_stable preferences videos).
  intros it Hin. destruct (Hclassified it Hin) as (title & v & c & Hc & ->).
  now apply (classified_score_not_nan preferences title v c).
Qed.

(** With a NaN among the scores the order is lost: the items come back
    as they were given, the smaller score first. *)
Example nan_breaks_the_order :
  map personalization_score
    (get_personalized_ranking RankingScenarios.preferences
       [ RankingScenarios.item "a" "X" 0 0;
         RankingScenarios.item "b" "X" nan 0;
         RankingScenarios.item "c" "X" 1 0 ])
  = [1%float; nan; 1.3%float].
Proof. reflexivity. Qed.

End RankingFacts.

(* ================================================================= *)
(** ** Further properties of the policy engine *)

Module FilterEdgeFacts.
Import Filter FloatOrder FloatOrderFacts.

(** Among floats that can be compared, [a < b] is the negation of [b <= a]. *)
Lemma ltb_negb_leb (a b : float) :
  PrimFloat.is_nan a = false -> PrimFloat.is_nan b = false ->
  PrimFloat.ltb a b = negb (PrimFloat.leb b a).
Proof.
  intros Ha Hb.
  destruct (PrimFloat.ltb a b) eqn:Hlt.
  - apply (ltb_rank a b Ha Hb) in Hlt. symmetry. apply negb_true_iff.
    apply not_true_is_false. intros Hle. apply (leb_rank b a Hb Ha) in Hle.
    generalize dependent (frank a). generalize dependent (frank b).
    intros rb ra Hlt Hle. destruct Hle as [Hle | Heq]; [ | subst ]; lex.
  - symmetry. apply negb_false_iff. now apply not_ltb_leb.
Qed.

Lemma ltb_nan_l (a b : float) :
  PrimFloat.is_nan a = true -> PrimFloat.ltb a b = false.
Proof.
  intros Ha. apply not_true_is_false. intros Hlt.
  destruct (ltb_true_not_nan a b Hlt) as [Ha' _]. congruence.
Qed.

Lemma ltb_nan_r (a b : float) :
  PrimFloat.is_nan b = true -> PrimFloat.ltb a b = false.
Proof.
  intros Hb. apply not_true_is_false. intros Hlt.
  destruct (ltb_true_not_nan a b Hlt) as [_ Hb']. congruence.
Qed.

(** When a strict comparison lets a value through. *)
Lemma ltb_false_iff (limit score : float) :
  PrimFloat.ltb limit score = false
  <-> PrimFloat.leb score limit = true
      \/ PrimFloat.is_nan score = true \/ PrimFloat.is_nan limit = true.
Proof.
  destruct (PrimFloat.is_nan score) eqn:Hs;
    [ split; [ auto | intros _; now apply ltb_nan_r ] | ].
  destruct (PrimFloat.is_nan limit) eqn:Hl;
    [ split; [ auto | intros _; now apply ltb_nan_l ] | ].
  rewrite (ltb_negb_leb limit score Hl Hs), negb_false_iff.
  split; [ auto | intros [H | [H | H]]; [ exact H | discriminate | discriminate ] ].
Qed.

(** X1. The two score checks are strict comparisons: the clickbait
    (entertainment) check lets a video through exactly when its score is at
    most the mode's maximum, the bound included, or when the score or the
    maximum is a NaN, which never blocks. *)
Theorem score_checks_admit_up_to_the_maximum (mode : FocusMode)
    (classification : VideoClassification) :
  (check_clickbait mode classification = None
   <-> PrimFloat.leb (clickbait_score classification) (max_clickbait_score mode) = true
       \/ PrimFloat.is_nan (clickbait_score classification) = true
       \/ PrimFloat.is_nan (max_clickbait_score mode) = true)
  /\ (check_entertainment mode classification = None
      <-> PrimFloat.leb (entertainment_score classification)
                        (max_entertainment_score mode) = true
          \/ PrimFloat.is_nan (entertainment_score classification) = true
          \/ PrimFloat.is_nan (max_entertainment_score mode) = true).
Proof.
  unfold check_clickbait, check_entertainment. split.
  - rewrite <- ltb_false_iff.
    destruct (PrimFloat.ltb _ _); split; congruence.
  - rewrite <- ltb_false_iff.
    destruct (PrimFloat.ltb _ _); split; congruence.
Qed.

(** X2. A video without a language (key absent, or empty) is never
    rejected for its language: the language check passes whatever the mode
    allows, and the verdict never carries a language reason. *)
Theorem missing_language_never_blocks `{StrOps} (mode : FocusMode)
    (video : Video) (classification : VideoClassification) :
  get (v_language video) EmptyString = EmptyString ->
  check_language mode video = None
  /\ forall lang,
       reason (check_video mode video classification)
       <> Some (language_reason lang).
Proof.
  intros Hlang.
  assert (Hcheck : check_language mode video = None).
  { unfold check_language. rewrite Hlang.
    now destruct (truthy (allowed_languages mode)). }
  split; [ exact Hcheck | ].
  intros lang. unfold check_video. rewrite Hcheck.
  unfold check_shorts, check_duration, check_blocked_categories,
    check_allowed_categories, check_clickbait, check_entertainment,
    check_keywords.
  repeat match goal with
         | |- context [if ?b then _ else _] => destruct b
         | |- context [match find ?p ?l with _ => _ end] => destruct (find p l)
         end;
    cbn [or_else reason block allow]; try discriminate;
    intros Heq; injection Heq; FilterFacts.first_char_differs.
Qed.

Lemma missing_language_never_blocks_witness :
  check_language (Presets.study "study" "user") Scenarios.music_video = None
  /\ forall lang,
       reason (check_video (H := ascii_ops) (Presets.study "study" "user")
                 Scenarios.music_video Scenarios.music_classification)
       <> Some (language_reason lang).
Proof.
  apply (missing_language_never_blocks (H := ascii_ops)
           (Presets.study "study" "user") Scenarios.music_video
           Scenarios.music_classification).
  reflexivity.
Defined.

Lemma contains_empty (hay : string) : contains EmptyString hay = true.
Proof. destruct hay; reflexivity. Qed.

Lemma existsb_find_some {A} (p : A -> bool) (l : list A) (x : A) :
  In x l -> p x = true -> exists y, find p l = Some y.
Proof.
  intros Hin Hpx. destruct (find p l) as [y |] eqn:Hfind; [ eauto | ].
  pose proof (find_none p l Hfind x Hin). congruence.
Qed.

(** X3. An empty string among the blocked keywords matches every title:
    a mode that lists it admits no video at all. *)
Theorem empty_keyword_blocks_everything `{StrOps} (mode : FocusMode)
    (video : Video) (classification : VideoClassification) :
  lower EmptyString = EmptyString ->
  In EmptyString (blocked_keywords mode) ->
  allowed (check_video mode video classification) = false
  /\ check_keywords mode video <> None.
Proof.
  intros Hlower Hin.
  assert (Hhit : keyword_hit video EmptyString = true).
  { unfold keyword_hit. rewrite Hlower. now rewrite contains_empty. }
  destruct (existsb_find_some _ _ _ Hin Hhit) as (kw & Hfind).
  assert (Hkw : check_keywords mode video = Some (block (keyword_reason kw))).
  { unfold check_keywords. rewrite Hfind.
    destruct (blocked_keywords mode); [ contradiction | reflexivity ]. }
  split; [ | rewrite Hkw; discriminate ].
  unfold check_video. rewrite Hkw.
  unfold check_shorts, check_duration, check_blocked_categories,
    check_allowed_categories, check_language, check_clickbait,
    check_entertainment.
  repeat match goal with
         | |- context [if ?b then _ else _] => destruct b
         end; reflexivity.
Qed.

Lemma empty_keyword_blocks_everything_witness :
  allowed (check_video (H := ascii_ops) MoreScenarios.gagged_mode
             Scenarios.python_tutorial
             (Scenarios.plain_classification "EDUCATION")) = false
  /\ check_keywords (H := ascii_ops) MoreScenarios.gagged_mode
       Scenarios.python_tutorial <> None.
Proof.
  apply (empty_keyword_blocks_everything (H := ascii_ops) MoreScenarios.gagged_mode
           Scenarios.python_tutorial (Scenarios.plain_classification "EDUCATION"));
    [ reflexivity | now left ].
Defined.

End FilterEdgeFacts.

(* ================================================================= *)
(** ** Further properties of the focus engine *)

Module FocusMoreFacts.
Import Focus FocusFacts.

Section Engine.
Variable uid : string.

Lemma owned_with_id_owned (mode_id : string) (m : FocusMode) :
  owned_with_id uid mode_id m = true ->
  owned uid m = true /\ id m = mode_id.
Proof.
  unfold owned_with_id. intros Hm. apply andb_prop in Hm as [Hid Ho].
  split; [ exact Ho | now apply String.eqb_eq ].
Qed.

Lemma filter_one_In {A} (p : A -> bool) (l : list A) (x : A) :
  filter p l = [x] ->
  In x l /\ p x = true /\ (List.length (filter p l) <= 1)%nat.
Proof.
  intros Hone.
  assert (Hin : In x (filter p l)) by (rewrite Hone; now left).
  apply filter_In in Hin as [Hin Hp]. rewrite Hone. simpl. auto.
Qed.

(** What a successful [lock_session] did. *)
Lemma lock_session_ok (now : datetime) (mode_id : string) (minutes : Z)
    (s s1 : Session) (locked : FocusMode) :
  lock_session uid now mode_id minutes s = (Ok locked, s1) ->
  exists m,
    filter (owned_with_id uid mode_id) (rows s) = [m]
    /\ is_active m = true
    /\ locked = with_lock true (Some (now + minutes * minute)) m
    /\ rows s1 = update_first (owned_with_id uid mode_id)
                   (with_lock true (Some (now + minutes * minute))) (rows s)
    /\ committed s1 = rows s1.
Proof.
  unfold lock_session, bind, select_modes.
  destruct (filter (owned_with_id uid mode_id) (rows s)) as [| m [| m' k]];
    cbn; try discriminate.
  destruct (is_active m) eqn:Hactive; cbn; try discriminate.
  intros [= <- <-]. exists m. repeat split; assumption.
Qed.

(** What a successful [unlock_session] did. *)
Lemma unlock_session_ok (mode_id : string) (s s1 : Session) (m' : FocusMode) :
  unlock_session uid mode_id s = (Ok m', s1) ->
  exists m,
    filter (owned_with_id uid mode_id) (rows s) = [m]
    /\ m' = with_lock false None m
    /\ rows s1 = update_first (owned_with_id uid mode_id)
                   (with_lock false None) (rows s)
    /\ committed s1 = rows s1.
Proof.
  unfold unlock_session, bind, select_modes.
  destruct (filter (owned_with_id uid mode_id) (rows s)) as [| m [| m2 k]];
    cbn; try discriminate.
  intros [= <- <-]. exists m. repeat split.
Qed.

(** With no mode flagged as locked, [activate_mode] raises no lock
    conflict. *)
Lemma no_flag_no_conflict (now : datetime) (target : string) (s : Session) :
  filter (owned_locked uid) (rows s) = [] ->
  forall n u, result_of (activate_mode uid now target s)
              <> Raise (ValueError (CannotChangeMode n u)).
Proof.
  intros Hnone n u. rewrite activate_mode_unfold.
  rewrite (get_locked_mode_none uid now s Hnone).
  destruct (find _ _); simpl; discriminate.
Qed.

End Engine.

(** Replacing the first row a query selects clears the flag [q] when at
    most one row is selected, at most one carries the flag, and some row is
    both. *)
Lemma update_first_clears_flag (p q : FocusMode -> bool)
    (f : FocusMode -> FocusMode) (l : list FocusMode) :
  (forall x, q (f x) = false) ->
  (List.length (filter p l) <= 1)%nat ->
  (List.length (filter q l) <= 1)%nat ->
  (exists x, In x l /\ p x = true /\ q x = true) ->
  filter q (update_first p f l) = [].
Proof.
  intros Hf. induction l as [| a l IH]; simpl; intros Hp Hq (x & Hin & Hpx & Hqx);
    [ contradiction | ].
  destruct (p a) eqn:Hpa; simpl in *.
  - rewrite Hf. destruct (q a) eqn:Hqa; simpl in *.
    + destruct (filter q l); [ reflexivity | simpl in Hq; lia ].
    + destruct Hin as [-> | Hin]; [ congruence | ].
      assert (Hx : In x (filter p l)) by (apply filter_In; now split).
      destruct (filter p l); [ contradiction | simpl in Hp; lia ].
  - destruct (q a) eqn:Hqa; simpl in *.
    + destruct Hin as [-> | Hin]; [ congruence | ].
      assert (Hx : In x (filter q l)) by (apply filter_In; now split).
      destruct (filter q l); [ contradiction | simpl in Hq; lia ].
    + apply IH; try assumption.
      destruct Hin as [-> | Hin]; [ congruence | eauto ].
Qed.

(** X4. Locking holds: after [lock_session] succeeds on a consistent
    session, the returned mode is the requested one, flagged as locked
    until [now + duration_minutes]; until then every [activate_mode],
    whatever its target, raises the lock conflict naming that mode and
    changes nothing; from that time on no lock conflict is raised. *)
Theorem lock_session_blocks_activation (uid : string) (now : datetime)
    (mode_id : string) (duration_minutes : Z) (s s1 : Session)
    (locked : FocusMode) :
  consistent uid s ->
  lock_session uid now mode_id duration_minutes s = (Ok locked, s1) ->
  id locked = mode_id /\ is_active locked = true /\ is_locked locked = true
  /\ lock_until locked = Some (now + duration_minutes * minute)
  /\ In locked (rows s1)
  /\ (forall later target,
        later < now + duration_minutes * minute ->
        activate_mode uid later target s1
        = (Raise (ValueError
                    (CannotChangeMode (name locked)
                       (Some (now + duration_minutes * minute)))), s1))
  /\ (forall later target,
        now + duration_minutes * minute <= later ->
        forall n u, result_of (activate_mode uid later target s1)
                    <> Raise (ValueError (CannotChangeMode n u))).
Proof.
  intros Hs Hlock.
  pose proof (lock_session_consistent uid now mode_id duration_minutes s Hs)
    as Hs1.
  rewrite Hlock in Hs1. unfold session_of in Hs1. cbn [snd] in Hs1.
  apply consistent_at_most_one_lock in Hs1. unfold at_most_one_lock in Hs1.
  destruct (lock_session_ok uid now mode_id duration_minutes s s1 locked Hlock)
    as (m & Hone & Hactive & -> & Hrows & _).
  destruct (filter_one_In _ _ _ Hone) as (Hin & Hm & Hlen).
  destruct (owned_with_id_owned uid mode_id m Hm) as [Ho Hid].
  set (until := now + duration_minutes * minute) in *.
  assert (Hin1 : In (with_lock true (Some until) m) (rows s1))
    by (rewrite Hrows; now apply update_first_hit).
  assert (Hflag : owned_locked uid (with_lock true (Some until) m) = true)
    by (unfold owned_locked, owned in *; simpl; now rewrite Ho).
  pose proof (filter_at_most_one _ _ _ Hs1 Hin1 Hflag) as Hfilter.
  repeat split; try assumption.
  - intros later target Hlt. rewrite activate_mode_unfold.
    now rewrite (get_locked_mode_live uid later s1 _ until Hfilter eq_refl Hlt).
  - intros later target Hle n u. rewrite activate_mode_unfold.
    rewrite (get_locked_mode_expired uid later s1 _ until Hfilter eq_refl Hle).
    destruct (find _ _); simpl; discriminate.
Qed.

Lemma lock_session_blocks_activation_witness :
  activate_mode "user" (SessionScenarios.now + 10 * minute) "relax"
    (session_of (lock_session "user" SessionScenarios.now "study" 25
                   SessionScenarios.free_session))
  = (Raise (ValueError
              (CannotChangeMode "Study Mode"
                 (Some (SessionScenarios.now + 25 * minute)))),
     session_of (lock_session "user" SessionScenarios.now "study" 25
                   SessionScenarios.free_session)).
Proof.
  assert (Hs : consistent "user" SessionScenarios.free_session).
  { split; [ simpl; lia | ].
    intros m [<- | [<- | []]]; intros Hm; [ reflexivity | discriminate Hm ]. }
  destruct (lock_session_blocks_activation "user" SessionScenarios.now "study"
              25 SessionScenarios.free_session _ _ Hs eq_refl)
    as (_ & _ & _ & _ & _ & Hblocked & _).
  apply Hblocked. unfold minute. lia.
Defined.



(** X6. The override works: on a consistent session, once
    [unlock_session] succeeds on the mode that is flagged as locked, no mode
    of the user is flagged any more and [activate_mode] raises no lock
    conflict, at any time and for any target. *)
Theorem unlock_session_lifts_the_lock (uid : string) (s s1 : Session)
    (m m' : FocusMode) :
  consistent uid s ->
  In m (rows s) -> owned uid m = true -> is_locked m = true ->
  unlock_session uid (id m) s = (Ok m', s1) ->
  m' = with_lock false None m
  /\ (forall x, In x (rows s1) -> owned uid x = true -> is_locked x = false)
  /\ forall now target n u,
       result_of (activate_mode uid now target s1)
       <> Raise (ValueError (CannotChangeMode n u)).
Proof.
  intros Hs Hin Ho Hl Hunlock.
  pose proof (consistent_at_most_one_lock uid s Hs) as Hone.
  unfold at_most_one_lock in Hone.
  destruct (unlock_session_ok uid (id m) s s1 m' Hunlock)
    as (y & Hsel & -> & Hrows & _).
  assert (Hm : owned_with_id uid (id m) m = true)
    by (unfold owned_with_id; now rewrite String.eqb_refl, Ho).
  assert (Hy : y = m).
  { assert (Hiny : In m (filter (owned_with_id uid (id m)) (rows s)))
      by (apply filter_In; now split).
    rewrite Hsel in Hiny. now destruct Hiny as [-> | []]. }
  subst y.
  assert (Hflag : owned_locked uid m = true)
    by (unfold owned_locked; now rewrite Ho, Hl).
  assert (Hnone : filter (owned_locked uid) (rows s1) = []).
  { rewrite Hrows. apply update_first_clears_flag.
    - apply owned_locked_cleared.
    - now rewrite Hsel.
    - exact Hone.
    - exists m. auto. }
  repeat split.
  - intros x Hx Hox. rewrite filter_nil_forall in Hnone.
    specialize (Hnone x Hx). unfold owned_locked in Hnone.
    now rewrite Hox in Hnone.
  - intros now target. now apply no_flag_no_conflict.
Qed.

Lemma unlock_session_lifts_the_lock_witness :
  exists m' s1,
    unlock_session "user" "study" SessionScenarios.locked_session = (Ok m', s1)
    /\ m' = with_lock false None SessionScenarios.locked_study
    /\ result_of (activate_mode "user" SessionScenarios.now "relax" s1)
       <> Raise (ValueError
                   (CannotChangeMode "Study Mode"
                      (Some (SessionScenarios.now + 30 * minute)))).
Proof.
  assert (Hs : consistent "user" SessionScenarios.locked_session).
  { split; [ simpl; lia | ].
    intros m [<- | [<- | []]]; intros Hm; [ reflexivity | discriminate Hm ]. }
  eexists _, _. split; [ reflexivity | ].
  destruct (unlock_session_lifts_the_lock "user"
              SessionScenarios.locked_session _ SessionScenarios.locked_study _
              Hs (or_introl eq_refl) eq_refl eq_refl eq_refl)
    as (Hm & _ & Hfree).
  split; [ exact Hm | apply Hfree ].
Defined.

End FocusMoreFacts.

(* ================================================================= *)
(** ** Sessions the focus engine produces, and its time accounting *)

Module FocusInvariantFacts.
Import Focus FocusFacts.




Lemma sum_nonneg (l : list Z) :
  (forall x, In x l -> 0 <= x) -> 0 <= fold_right Z.add 0 l.
Proof.
  induction l as [| x l IH]; simpl; intros Hall; [ lia | ].
  assert (0 <= x) by (apply Hall; now left).
  assert (0 <= fold_right Z.add 0 l) by (apply IH; intros y Hy; apply Hall; now right).
  lia.
Qed.

(** X8. [check_time_limit] only reads: it never raises and returns the
    session unchanged.  When a limit applies, "exceeded" and a remaining
    time of zero are the same thing, and the remaining time is the limit
    minus the minutes used, floored at zero; with watch durations that are
    not negative and a positive limit it lies between 0 and the limit. *)
Theorem time_limit_report_is_coherent (uid : string) (now : datetime)
    (mode : FocusMode) (s : Session) :
  exists r,
    check_time_limit uid now mode s = (Ok r, s)
    /\ (has_limit r = false ->
          exceeded r = false /\ limit_minutes r = None
          /\ remaining_minutes r = None)
    /\ (has_limit r = true ->
          exists limit remaining,
            limit_minutes r = Some limit
            /\ daily_time_limit_minutes mode = Some limit
            /\ remaining_minutes r = Some remaining
            /\ (exceeded r = true <-> remaining = 0)
            /\ (exceeded r = false -> remaining = limit - used_minutes r)
            /\ 0 <= remaining
            /\ ((forall w, In w (history s) -> 0 <= watch_duration_seconds w) ->
                0 <= used_minutes r /\ (0 < limit -> remaining <= limit))).
Proof.
  unfold check_time_limit.
  destruct (falsy (daily_time_limit_minutes mode)) eqn:Hfalsy.
  - eexists. split; [ reflexivity | ]. cbn. split; [ auto | discriminate ].
  - eexists. split; [ reflexivity | ]. cbn. split; [ discriminate | ].
    intros _. destruct (daily_time_limit_minutes mode) as [limit |] eqn:Hl;
      [ | discriminate Hfalsy ].
    cbn. rewrite or_zero_sql_sum.
    set (used := fold_right Z.add 0 _ / 60).
    exists limit, (Z.max 0 (limit - used)).
    split; [ reflexivity | ]. split; [ reflexivity | ].
    split; [ reflexivity | ].
    split; [ rewrite Z.leb_le; lia | ].
    split; [ intros Hex; apply Z.leb_gt in Hex; lia | ].
    split; [ lia | ].
    intros Hpos.
    assert (Hused : 0 <= used).
    { apply Z.div_pos; [ | lia ]. apply sum_nonneg.
      intros x Hx. apply in_map_iff in Hx as (w & <- & Hw).
      apply filter_In in Hw as [Hw _]. now apply Hpos. }
    split; lia.
Qed.

End FocusInvariantFacts.

(* ================================================================= *)
(** ** Further properties of the heuristic classifier and of the score *)

Module ClassifierMoreFacts.
Import Classifier ClassifierFacts ClassifierPriority.

(** The classification, spelled out: the schema's validation lets it pass. *)
Lemma fallback_classification_runs `{StrOps} (video : Video) :
  _fallback_classification video
  = Some {| category :=
              c_category (adjust_duration (get (v_duration_seconds video) 0)
                            (cascade (text_of video) (channel_of video)));
            confidence_score := 0.6;
            entertainment_score :=
              c_entertainment (adjust_duration (get (v_duration_seconds video) 0)
                                 (cascade (text_of video) (channel_of video)));
            depth_score :=
              c_depth (adjust_duration (get (v_duration_seconds video) 0)
                         (cascade (text_of video) (channel_of video)));
            clickbait_score :=
              clickbait (text_of video) (get (v_title video) EmptyString) |}.
Proof.
  unfold _fallback_classification.
  change (combined_text _ _ _ _) with (text_of video).
  change (lower (get (v_channel_title video) EmptyString)) with (channel_of video).
  pose proof (adjust_duration_well_formed (get (v_duration_seconds video) 0) _
                (cascade_cases (text_of video) (channel_of video)))
    as (_ & Hent & Hdep).
  pose proof (clickbait_unit_interval (text_of video)
                (get (v_title video) EmptyString)) as Hclick.
  assert (Hconf : unit_interval 0.6) by (split; reflexivity).
  unfold VideoClassification_new.
  now rewrite (unit_interval_field_ok _ Hconf), (unit_interval_field_ok _ Hent),
    (unit_interval_field_ok _ Hdep), (unit_interval_field_ok _ Hclick).
Qed.

Lemma adjust_duration_category (duration : Z) (st : Cascade) :
  c_category (adjust_duration duration st) = c_category st.
Proof.
  unfold adjust_duration.
  destruct (duration <? 60); [ destruct (negb _) | destruct (1200 <? duration) ];
    reflexivity.
Qed.

Lemma cascade_category (text channel : string) :
  c_category (cascade text channel)
  = first_matching_category
      {| music := any_in music_keywords text
                  || any_in music_channel_indicators channel;
         gaming := any_in gaming_keywords text;
         comedy := any_in comedy_keywords text;
         education := any_in education_keywords text;
         tech := any_in tech_keywords text;
         howto := any_in howto_keywords text |}.
Proof.
  unfold cascade, stage, first_matching_category.
  generalize (any_in music_keywords text) (any_in music_channel_indicators channel)
             (any_in gaming_keywords text) (any_in comedy_keywords text)
             (any_in general_entertainment text) (any_in education_keywords text)
             (any_in tech_keywords text) (any_in howto_keywords text).
  intros [] [] [] [] [] [] [] []; reflexivity.
Qed.

(** X9. The category is decided by priority: MUSIC if a music keyword
    occurs in the text or a music indicator in the channel name, else GAMING
    if a gaming keyword occurs, else COMEDY, else EDUCATION, else
    SCIENCE_TECH, else HOWTO_STYLE, and ENTERTAINMENT when none does;
    neither the general-entertainment keywords nor the duration change
    it.  In particular a video is EDUCATION only if it matches no music,
    gaming or comedy keyword. *)
Theorem category_follows_priority `{StrOps} (video : Video) :
  exists c,
    _fallback_classification video = Some c
    /\ category c = first_matching_category (matches_of video)
    /\ (category c = "EDUCATION" ->
          music (matches_of video) = false
          /\ gaming (matches_of video) = false
          /\ comedy (matches_of video) = false
          /\ education (matches_of video) = true)
    /\ (music (matches_of video) = true -> category c = "MUSIC").
Proof.
  eexists. split; [ apply fallback_classification_runs | ].
  cbn [category]. rewrite adjust_duration_category, cascade_category.
  fold (matches_of video). unfold first_matching_category.
  destruct (matches_of video) as [[] [] [] [] [] []]; cbn;
    repeat split; intros; try reflexivity; discriminate.
Qed.

(** X10. A video shorter than 60 seconds -- or without a duration, which
    counts as 0 -- that is not MUSIC gets an entertainment score of at least
    0.7 and a depth score of at most 0.3, whatever its keywords; a MUSIC
    video keeps the scores of the music stage. *)
Theorem short_videos_score_as_entertainment `{StrOps} (video : Video) :
  get (v_duration_seconds video) 0 < 60 ->
  exists c,
    _fallback_classification video = Some c
    /\ (category c <> "MUSIC" ->
          PrimFloat.leb 0.7 (entertainment_score c) = true
          /\ PrimFloat.leb (depth_score c) 0.3 = true)
    /\ (category c = "MUSIC" ->
          (entertainment_score c = 0.8%float /\ depth_score c = 0.2%float)
          \/ (entertainment_score c = 0.7%float /\ depth_score c = 0.3%float)).
Proof.
  intros Hshort. eexists. split; [ apply fallback_classification_runs | ].
  cbn [category entertainment_score depth_score].
  apply Z.ltb_lt in Hshort. unfold adjust_duration. rewrite Hshort.
  pose proof (cascade_cases (text_of video) (channel_of video)) as Hin.
  revert Hin. generalize (cascade (text_of video) (channel_of video)).
  intros st Hin.
  repeat (destruct Hin as [<- | Hin]; [ | ]); try contradiction;
    vm_compute; split; intros Hcat;
    try (exfalso; apply Hcat; reflexivity); try discriminate Hcat;
    try (split; reflexivity); auto.
Qed.

Lemma short_videos_score_as_entertainment_witness :
  exists c,
    _fallback_classification (H := ascii_ops) Scenarios.shocking_prank = Some c
    /\ (category c <> "MUSIC" ->
          PrimFloat.leb 0.7 (entertainment_score c) = true
          /\ PrimFloat.leb (depth_score c) 0.3 = true)
    /\ (category c = "MUSIC" ->
          (entertainment_score c = 0.8%float /\ depth_score c = 0.2%float)
          \/ (entertainment_score c = 0.7%float /\ depth_score c = 0.3%float)).
Proof.
  apply (short_videos_score_as_entertainment (H := ascii_ops)
           Scenarios.shocking_prank).
  simpl. lia.
Defined.

End ClassifierMoreFacts.

Module ScoreMoreFacts.
Import Personalization.

(** X11. Preference and aversion cancel exactly: a video whose category is
    both preferred and avoided gets the score it would get with no
    preferences at all. *)
Theorem preferred_and_avoided_cancel (preferences : Preferences) (v : Item) :
  mem (get (i_category v) EmptyString) (preferred_categories preferences) = true ->
  mem (get (i_category v) EmptyString) (avoided_categories preferences) = true ->
  score_of preferences v
  = score_of {| preferred_categories := []; avoided_categories := [] |} v.
Proof.
  intros Hp Ha. unfold score_of. rewrite Hp, Ha. reflexivity.
Qed.

Lemma preferred_and_avoided_cancel_witness :
  score_of MoreScenarios.torn_preferences RankingScenarios.lecture
  = score_of {| preferred_categories := []; avoided_categories := [] |}
      RankingScenarios.lecture.
Proof.
  apply (preferred_and_avoided_cancel MoreScenarios.torn_preferences
           RankingScenarios.lecture); reflexivity.
Defined.

End ScoreMoreFacts.
